(** * GMK87 display driver: command channel, configuration store, frame encoder

    A shallow embedding of [reference.py] (classes [USBDevice] and [Keyboard])
    and the properties of its wire protocol.

    Python integers are [Z]; [>>], [<<], [&], [|] and [~] are [Z.shiftr],
    [Z.shiftl], [Z.land], [Z.lor] and [Z.lnot], which agree with Python on
    negative numbers too; [//] and [%] with a positive divisor are [Z.div]
    and [Z.modulo].  Python lists and [array.array('B')] values are
    [list Z]; item assignment is stdpp's list insert guarded by the range
    check Python performs.  Exceptions and object state are threaded by a
    small state-and-exception monad in which the state survives a raise, as
    attribute updates of a Python object do. *)

From Stdlib Require Import ZArith Lia.
From stdpp Require Import base tactics option numbers list.

Local Open Scope Z_scope.

(** ** Exceptions and outcomes *)

(** [ValueError] and [IndexError] are Python's; [OverflowError] is what an
    [array.array('B')] raises on a value outside 0..255; [USBTimeoutError]
    is what the endpoint read raises when its timeout expires. *)
Inductive exn : Set :=
  | ValueError
  | IndexError
  | OverflowError
  | USBTimeoutError.

(** [Unfinished] is not a Python behaviour: it marks a loop of the model that
    used up its iteration budget. *)
Inductive outcome (A : Type) : Type :=
  | Ok (a : A)
  | Raise (e : exn)
  | Unfinished.
Arguments Ok {A} a.
Arguments Raise {A} e.
Arguments Unfinished {A}.

#[global] Instance outcome_ret : MRet outcome := fun A a => Ok a.
#[global] Instance outcome_bind : MBind outcome := fun A B f m =>
  match m with
  | Ok a => f a
  | Raise e => Raise e
  | Unfinished => Unfinished
  end.

(** ** Module constants *)

Definition DISPLAY_WIDTH : Z := 240.
Definition DISPLAY_HEIGHT : Z := 135.

Definition DATE_OFFSET : nat := 35.
Definition DELAY_OFFSET : nat := 43.
Definition FRAMES_1_OFFSET : nat := 34.
Definition FRAMES_2_OFFSET : nat := 46.

(** ** Item assignment *)

(** [lst[i] = v] on a Python list, [i] a non-negative index. *)
Definition list_setitem (lst : list Z) (i : nat) (v : Z) : outcome (list Z) :=
  if decide (i < length lst)%nat then Ok (<[i:=v]> lst) else Raise IndexError.

(** [a[i] = v] on an [array.array('B')], [i] a non-negative index. *)
Definition array_setitem (a : list Z) (i : nat) (v : Z) : outcome (list Z) :=
  if decide (i < length a)%nat then
    if decide (0 <= v <= 255) then Ok (<[i:=v]> a) else Raise OverflowError
  else Raise IndexError.

(** ** [Keyboard._int_to_bcd] *)

Definition _int_to_bcd (n : Z) : outcome Z :=
  if decide (0 <= n <= 99) then
    Ok (Z.lor (Z.shiftl (n / 10) 4) (n mod 10))
  else Raise ValueError.

(** ** [Keyboard.encode_frame] *)

Definition pixel : Type := Z * Z * Z.

(** The value [val] computed in the loop body for one pixel. *)
Definition rgb565 (px : pixel) : Z :=
  let '(p0, p1, p2) := px in
  let r := Z.land (Z.shiftr p0 3) 0x1F in
  let g := Z.land (Z.shiftr p1 2) 0x3F in
  let b := Z.land (Z.shiftr p2 3) 0x1F in
  Z.lor (Z.lor (Z.shiftl r 11) (Z.shiftl g 5)) b.

Definition frame_size : Z :=
  Z.land (DISPLAY_WIDTH * DISPLAY_HEIGHT * 2 + 0x7fff) (Z.lnot 0x7fff).

(** The [for idx, pixel in enumerate(frame)] loop, from index [idx] on. *)
Fixpoint encode_pixels (frame : list pixel) (idx : nat) (frame_buffer : list Z)
  : outcome (list Z) :=
  match frame with
  | [] => Ok frame_buffer
  | px :: rest =>
      let val := rgb565 px in
      frame_buffer ← array_setitem frame_buffer (idx * 2)
                       (Z.land (Z.shiftr val 8) 0xff);
      frame_buffer ← array_setitem frame_buffer (idx * 2 + 1)
                       (Z.land val 0xff);
      encode_pixels rest (S idx) frame_buffer
  end.

Definition encode_frame (frame : list pixel) : outcome (list Z) :=
  let frame_buffer := replicate (Z.to_nat frame_size) 0 in
  encode_pixels frame 0 frame_buffer.

(** ** The request frame of [Keyboard.send_command] *)

(** Lines 277-289: the 64-entry [buffer] handed to [usb.write].  The slice
    assignment [buffer[8:8+len(data)] = data] replaces the entries from 8 up
    to (not including) [8+len(data)], clipped to the buffer, by [data]. *)
Definition request_frame (command_id : Z) (data : list Z) (pos : Z) : list Z :=
  let buffer := replicate 64 0 in
  let buffer := <[0%nat := 0x04]> buffer in
  let buffer := <[3%nat := command_id]> buffer in
  let buffer := <[4%nat := Z.of_nat (length data)]> buffer in
  let buffer := <[5%nat := Z.land pos 0xff]> buffer in
  let buffer := <[6%nat := Z.land (Z.shiftr pos 8) 0xff]> buffer in
  let buffer := <[7%nat := Z.land (Z.shiftr pos 16) 0xff]> buffer in
  let buffer := take 8 buffer ++ data ++ drop (8 + length data) buffer in
  let checksum := foldr Z.add 0 (drop 3 buffer) in
  let buffer := <[1%nat := Z.land checksum 0xff]> buffer in
  let buffer := <[2%nat := Z.land (Z.shiftr checksum 8) 0xff]> buffer in
  buffer.

(** ** The transport port and the keyboard object *)

(** What one [ep_in.read] yields: the timeout expires, or a packet arrives
    ([bs] is what the read returns, at most the eight bytes it asks for). *)
Inductive read_result : Type :=
  | Timeout
  | Packet (bs : list Z).

(** What happens on the port, oldest first: [time.sleep(0.1)], one
    [ep_out.write], one [ep_in.read] with its result. *)
Inductive event : Type :=
  | Slept
  | Wrote (data : list Z)
  | Read (r : read_result).

(** The [Keyboard] object.  [usb] is the history of its [USBDevice];
    [config] is the Python list that [load_config] builds ([reset], which
    stores a [bytearray] there instead, is not part of this development). *)
Record Keyboard : Type := mkKeyboard {
  usb : list event;
  config : list Z;
  config_needs_update : bool
}.

Definition set_usb (t : list event) (kb : Keyboard) : Keyboard :=
  mkKeyboard t (config kb) (config_needs_update kb).
Definition set_config (c : list Z) (kb : Keyboard) : Keyboard :=
  mkKeyboard (usb kb) c (config_needs_update kb).
Definition set_config_needs_update (b : bool) (kb : Keyboard) : Keyboard :=
  mkKeyboard (usb kb) (config kb) b.

(** The frames written so far, in order. *)
Definition writes (t : list event) : list (list Z) :=
  omap (fun e => match e with Wrote f => Some f | _ => None end) t.

(** Methods: a result or an exception, and the object afterwards. *)
Definition M (A : Type) : Type := Keyboard → outcome A * Keyboard.

#[global] Instance M_ret : MRet M := fun A a kb => (Ok a, kb).
#[global] Instance M_bind : MBind M := fun A B f m kb =>
  match m kb with
  | (Ok a, kb') => f a kb'
  | (Raise e, kb') => (Raise e, kb')
  | (Unfinished, kb') => (Unfinished, kb')
  end.

Definition raise {A} (e : exn) : M A := fun kb => (Raise e, kb).
Definition unfinished {A} : M A := fun kb => (Unfinished, kb).
Definition lift {A} (o : outcome A) : M A := fun kb => (o, kb).
Definition get_config : M (list Z) := fun kb => (Ok (config kb), kb).
Definition get_config_needs_update : M bool :=
  fun kb => (Ok (config_needs_update kb), kb).
Definition put_config (c : list Z) : M unit :=
  fun kb => (Ok tt, set_config c kb).
Definition put_config_needs_update (b : bool) : M unit :=
  fun kb => (Ok tt, set_config_needs_update b kb).
Definition log (e : event) : M unit :=
  fun kb => (Ok tt, set_usb (usb kb ++ [e]) kb).

(** [self.config[i] = v] *)
Definition config_setitem (i : nat) (v : Z) : M unit :=
  c ← get_config; c ← lift (list_setitem c i v); put_config c.

(** [for x in xs: acc = body(x, acc)] *)
Fixpoint for_each {A S : Type} (xs : list A) (body : A → S → M S) (acc : S)
  : M S :=
  match xs with
  | [] => mret acc
  | x :: rest => acc ← body x acc; for_each rest body acc
  end.

(** [range(n)] *)
Definition range (n : nat) : list nat := seq 0 n.

(** [datetime.datetime.now()], with [isoweekday()] already taken. *)
Record datetime : Type := mkDatetime {
  year : Z; month : Z; day : Z;
  hour : Z; minute : Z; second : Z;
  isoweekday : Z
}.

(** An [Animation]: the pixel data of its processed frames. *)
Definition Animation : Type := list (list pixel).
Definition num_frames (a : Animation) : nat := length a.
Definition get_frame (a : Animation) (idx : nat) : outcome (list pixel) :=
  match a !! idx with
  | Some f => Ok f
  | None => Raise IndexError
  end.

Section Driver.

(** The keyboard at the other end of the port: what the next read yields,
    given everything that happened on the port so far. *)
Variable device : list event → read_result.

(** How many reads one receive loop of the model may make. *)
Variable budget : nat.

(** [USBDevice.write] *)
Definition USBDevice_write (data : list Z) : M unit :=
  let data :=
    if decide (length data < 64)%nat
    then data ++ replicate (64 - length data) 0
    else data in
  log (Wrote data).

(** [USBDevice.read] *)
Definition USBDevice_read : M (list Z) :=
  fun kb =>
    let r := device (usb kb) in
    let kb := set_usb (usb kb ++ [Read r]) kb in
    match r with
    | Timeout => (Raise USBTimeoutError, kb)
    | Packet bs => (Ok bs, kb)
    end.

(** The [while True] loop of [send_command], at most [n] rounds of it. *)
Fixpoint receive (n : nat) (buffer : list Z) : M (list Z) :=
  match n with
  | O => unfinished
  | S n' =>
      response ← USBDevice_read;
      if decide (take 3 response = take 3 buffer)
      then mret (drop 4 response)
      else receive n' buffer
  end.

(** [Keyboard.send_command] *)
Definition send_command (command_id : Z) (data : list Z) (pos : Z)
  : M (list Z) :=
  if decide (¬ (0 < command_id <= 0xff)) then raise ValueError
  else if decide (56 < length data)%nat then raise ValueError
  else
    _ ← (if decide (command_id = 2) then log Slept else mret tt);
    let buffer := request_frame command_id data pos in
    _ ← USBDevice_write buffer;
    receive budget buffer.

(** [Keyboard.load_config] *)
Definition load_config : M unit :=
  _ ← send_command 1 [] 0;
  _ ← for_each (range 9) (fun i _ =>
        _ ← send_command 3 (replicate 4 0x00) (Z.of_nat i * 4); mret tt) tt;
  _ ← send_command 3 [0x00] 36;
  _ ← send_command 2 [] 0;
  buffer ← for_each (range 12) (fun i buffer =>
        r ← send_command 5 (replicate 4 0x00) (Z.of_nat i * 4);
        mret (buffer ++ r)) [];
  _ ← put_config_needs_update false;
  put_config buffer.

(** [if not self.config: self.load_config()] *)
Definition ensure_config : M unit :=
  c ← get_config;
  match c with
  | [] => load_config
  | _ :: _ => mret tt
  end.

(** [Keyboard.set_datetime], [now] being what the clock returns. *)
Definition set_datetime (now : datetime) : M unit :=
  _ ← ensure_config;
  v ← lift (_int_to_bcd (second now)); _ ← config_setitem DATE_OFFSET v;
  v ← lift (_int_to_bcd (minute now)); _ ← config_setitem (DATE_OFFSET + 1) v;
  v ← lift (_int_to_bcd (hour now)); _ ← config_setitem (DATE_OFFSET + 2) v;
  _ ← config_setitem (DATE_OFFSET + 3) (isoweekday now);
  v ← lift (_int_to_bcd (day now)); _ ← config_setitem (DATE_OFFSET + 4) v;
  v ← lift (_int_to_bcd (month now)); _ ← config_setitem (DATE_OFFSET + 5) v;
  v ← lift (_int_to_bcd (year now - 2000));
  _ ← config_setitem (DATE_OFFSET + 6) v;
  put_config_needs_update true.

(** [Keyboard.set_animation_delay] *)
Definition set_animation_delay (ms : Z) : M unit :=
  _ ← ensure_config;
  let ms := Z.max 60 (Z.min ms 0xffff) in
  _ ← config_setitem DELAY_OFFSET (Z.land ms 0xff);
  _ ← config_setitem (DELAY_OFFSET + 1) (Z.land (Z.shiftr ms 8) 0xff);
  put_config_needs_update true.

(** [Keyboard.set_frame_count] *)
Definition set_frame_count (first_count second_count : Z) : M unit :=
  _ ← ensure_config;
  _ ← config_setitem FRAMES_1_OFFSET first_count;
  _ ← config_setitem FRAMES_2_OFFSET second_count;
  put_config_needs_update true.

(** [Keyboard.update_config] *)
Definition update_config : M unit :=
  dirty ← get_config_needs_update;
  if negb dirty then mret tt
  else
    _ ← send_command 1 [] 0;
    c ← get_config;
    _ ← send_command 6 c 0;
    _ ← send_command 2 [] 0;
    put_config_needs_update false.

(** The [while pos < total] loop of [upload_frames], at most [n] rounds.
    Progress is only printed, and standard output is not part of the
    model. *)
Fixpoint upload_chunks (n : nat) (data : list Z) (pos total : nat)
  : M unit :=
  if decide (pos < total)%nat then
    match n with
    | O => unfinished
    | S n' =>
        let size := Nat.min 56 (total - pos) in
        _ ← send_command 0x21 (take size (drop pos data)) (Z.of_nat pos);
        upload_chunks n' data (pos + size) total
    end
  else mret tt.

(** [for i in range(a.num_frames()): data.extend(encode_frame(a.get_frame(i)))] *)
Definition encode_animation (a : Animation) (data : list Z) : M (list Z) :=
  for_each (range (num_frames a)) (fun i data =>
    frame ← lift (get_frame a i);
    encoded ← lift (encode_frame frame);
    mret (data ++ encoded)) data.

(** [Keyboard.upload_frames].  Every round of the chunk loop moves [pos]
    forward by at least one, so [total] rounds are enough for it. *)
Definition upload_frames (first second : Animation) : M unit :=
  data ← encode_animation first [];
  data ← encode_animation second data;
  _ ← send_command 0x23 [] 0;
  _ ← send_command 1 [] 0;
  let total := length data in
  _ ← upload_chunks total data 0 total;
  _ ← send_command 2 [] 0;
  mret tt.

End Driver.

(** ** Vocabulary of the statements *)

(** The two bytes [encode_frame] stores for one pixel: high byte first. *)
Definition wire_bytes (px : pixel) : list Z :=
  [Z.land (Z.shiftr (rgb565 px) 8) 0xff; Z.land (rgb565 px) 0xff].

(** A pixel as the image decoder delivers it: three 8-bit channels. *)
Definition is_rgb (px : pixel) : Prop :=
  let '(r, g, b) := px in 0 <= r <= 255 ∧ 0 <= g <= 255 ∧ 0 <= b <= 255.

(** An entry that fits one byte. *)
Definition is_byte (v : Z) : Prop := 0 <= v <= 255.

(** [kb'] is [kb] with, at most, the blob entries in [designated] rewritten:
    same port history, same blob length, same entry everywhere else. *)
Definition only_changes (designated : nat → Prop) (kb kb' : Keyboard) : Prop :=
  usb kb' = usb kb
  ∧ length (config kb') = length (config kb)
  ∧ ∀ i : nat, ¬ designated i → config kb' !! i = config kb !! i.

(** The same of an object that holds a blob; nothing is said of one that
    holds none yet, which a setter first loads. *)
Definition rewrites_only (designated : nat → Prop) (kb kb' : Keyboard) : Prop :=
  config kb ≠ [] → only_changes designated kb kb'.

(** The value [set_animation_delay] stores. *)
Definition clamp_delay (ms : Z) : Z := Z.max 60 (Z.min ms 0xffff).

(** A clock reading whose seven fields all pass the BCD encoder. *)
Definition encodable (now : datetime) : Prop :=
  0 <= second now <= 99 ∧ 0 <= minute now <= 99 ∧ 0 <= hour now <= 99
  ∧ 0 <= day now <= 99 ∧ 0 <= month now <= 99 ∧ 0 <= year now - 2000 <= 99.

(** A method that, whatever the object, rewrites only designated entries. *)
Definition keeps {A} (designated : nat → Prop) (m : M A) : Prop :=
  ∀ kb : Keyboard, rewrites_only designated kb (m kb).2.

(** A two-digit number in binary-coded decimal: tens in the high nibble. *)
Definition bcd (n : Z) : Z := 16 * (n / 10) + n mod 10.

(** A blob of 48 zero bytes, and an object that holds it, for examples. *)
Definition blank_keyboard : Keyboard := mkKeyboard [] (replicate 48 0) false.

(** A port on which nothing ever arrives. *)
Definition silent_device (t : list event) : read_result := Timeout.

(** ** What the device does with a request *)

(** From history [t] on the reads come to an end for [buffer]: after
    finitely many packets that do not echo its first three bytes, the
    timeout expires or a packet arrives that does echo them. *)
Inductive settles (device : list event → read_result) (buffer : list Z)
  : list event → Prop :=
  | settles_timeout (t : list event) :
      device t = Timeout → settles device buffer t
  | settles_match (t : list event) (bs : list Z) :
      device t = Packet bs → take 3 bs = take 3 buffer →
      settles device buffer t
  | settles_skip (t : list event) (bs : list Z) :
      device t = Packet bs → take 3 bs ≠ take 3 buffer →
      settles device buffer (t ++ [Read (Packet bs)]) →
      settles device buffer t.

(** The same, ending in the echo and never in a timeout. *)
Inductive answers (device : list event → read_result) (buffer : list Z)
  : list event → Prop :=
  | answers_now (t : list event) (bs : list Z) :
      device t = Packet bs → take 3 bs = take 3 buffer →
      answers device buffer t
  | answers_later (t : list event) (bs : list Z) :
      device t = Packet bs → take 3 bs ≠ take 3 buffer →
      answers device buffer (t ++ [Read (Packet bs)]) →
      answers device buffer t.

(** A device that answers every 64-byte frame written to it, whatever
    happened before. *)
Definition responsive (device : list event → read_result) : Prop :=
  ∀ (t : list event) (f : list Z),
    length f = 64%nat → answers device f (t ++ [Wrote f]).

(** The history right after [send_command] has written its frame. *)
Definition after_write (command_id : Z) (data : list Z) (pos : Z)
    (t : list event) : list event :=
  (t ++ if decide (command_id = 2) then [Slept] else [])
  ++ [Wrote (request_frame command_id data pos)].

(** A device that sends the same unrelated packet on every read. *)
Definition chatty_device (t : list event) : read_result := Packet [0; 0; 0].

(** A device that, after every write, first sends one unrelated packet and
    then echoes the header of the last frame written, followed by a zero and
    by entries 5 to 8 of that frame. *)
Definition answer_to (f : list Z) : list Z :=
  take 3 f ++ 0 :: take 4 (drop 5 f).

Definition demo_device (t : list event) : read_result :=
  match last t with
  | Some (Wrote _) => Packet [0xee]
  | _ =>
      match last (writes t) with
      | Some f => Packet (answer_to f)
      | None => Timeout
      end
  end.

(** ** Command sequences *)

(** One call of [send_command]: command id, payload, offset. *)
Definition call : Type := Z * list Z * Z.

Definition frame_of (k : call) : list Z :=
  let '(command_id, data, pos) := k in request_frame command_id data pos.

(** A call that passes the two checks of [send_command]. *)
Definition valid_call (k : call) : Prop :=
  let '(command_id, data, pos) := k in
  0 < command_id <= 255 ∧ (length data ≤ 56)%nat.

(** One completed call as the port saw it: the packets that were read and
    discarded, and the packet that was accepted. *)
Record exchange : Type := mkExchange {
  x_call : call;
  x_skipped : list (list Z);
  x_reply : list Z
}.

Definition exchange_events (x : exchange) : list event :=
  (if decide ((x_call x).1.1 = 2) then [Slept] else [])
  ++ [Wrote (frame_of (x_call x))]
  ++ ((fun bs => Read (Packet bs)) <$> x_skipped x)
  ++ [Read (Packet (x_reply x))].

(** The discarded packets do not echo the request, the accepted one does. *)
Definition exchange_ok (x : exchange) : Prop :=
  Forall (fun bs => take 3 bs ≠ take 3 (frame_of (x_call x))) (x_skipped x)
  ∧ take 3 (x_reply x) = take 3 (frame_of (x_call x)).

(** What [send_command] returns for it. *)
Definition payload (x : exchange) : list Z := drop 4 (x_reply x).

(** [send_command] on each call in turn, collecting what it returns. *)
Fixpoint transact (device : list event → read_result) (budget : nat)
    (calls : list call) : M (list (list Z)) :=
  match calls with
  | [] => mret []
  | (command_id, data, pos) :: rest =>
      r ← send_command device budget command_id data pos;
      rs ← transact device budget rest;
      mret (r :: rs)
  end.

(** The calls of a load, as the specification lists them: begin; nine probes
    of four zero bytes at offsets 0, 4, ..., 32; one probe of one zero byte at
    offset 36; commit; twelve reads of four zero bytes at offsets 0, 4, ...,
    44. *)
Definition load_calls : list call :=
  [(1, [], 0)]
  ++ ((fun i : nat => (3, [0; 0; 0; 0], 4 * Z.of_nat i)) <$> seq 0 9)
  ++ [(3, [0], 36); (2, [], 0)]
  ++ ((fun i : nat => (5, [0; 0; 0; 0], 4 * Z.of_nat i)) <$> seq 0 12).

(** The calls of a write-back: begin, the whole blob under command 6,
    commit. *)
Definition commit_calls (blob : list Z) : list call :=
  [(1, [], 0); (6, blob, 0); (2, [], 0)].

(** ** The upload stream *)

(** A frame of exactly the display's width times height pixels. *)
Definition full_frame (frame : list pixel) : Prop :=
  Z.of_nat (length frame) = DISPLAY_WIDTH * DISPLAY_HEIGHT.

(** The buffer a frame encodes to: two bytes per pixel, then zeros. *)
Definition encoding (frame : list pixel) : list Z :=
  (frame ≫= wire_bytes)
  ++ replicate (Z.to_nat frame_size - 2 * length frame) 0.

(** The [k]-th piece of at most 56 bytes, and how many pieces there are. *)
Definition chunk (data : list Z) (k : nat) : list Z :=
  take 56 (drop (56 * k) data).

Definition chunk_count (total : nat) : nat := ((total + 55) / 56)%nat.

Definition chunk_call (data : list Z) (k : nat) : call :=
  (0x21, chunk data k, Z.of_nat (56 * k)).

(** The calls of an upload, as the specification lists them: select upload
    mode, begin, one command 0x21 per chunk at the chunk's position in the
    stream, commit. *)
Definition upload_calls (data : list Z) : list call :=
  [(0x23, [], 0); (1, [], 0)]
  ++ (chunk_call data <$> seq 0 (chunk_count (length data)))
  ++ [(2, [], 0)].

(** A method run for its effect only. *)
Definition void {A} (m : M A) : M unit := _ ← m; mret tt.

(** Two one-frame animations for examples: all white, all black. *)
Definition white_animation : Animation :=
  [replicate (Z.to_nat (DISPLAY_WIDTH * DISPLAY_HEIGHT)) (255, 255, 255)].
Definition black_animation : Animation :=
  [replicate (Z.to_nat (DISPLAY_WIDTH * DISPLAY_HEIGHT)) (0, 0, 0)].

(** ** Vocabulary of the further properties *)

(** The sum [send_command] takes over entries 3 to 63 of its buffer. *)
Definition frame_sum (command_id : Z) (data : list Z) (pos : Z) : Z :=
  command_id + Z.of_nat (length data)
  + Z.land pos 0xff + Z.land (Z.shiftr pos 8) 0xff
  + Z.land (Z.shiftr pos 16) 0xff
  + foldr Z.add 0 data.

(** Reading a BCD byte back: ten times the high nibble plus the low one. *)
Definition bcd_decode (b : Z) : Z := b / 16 * 10 + b mod 16.

(** [kb'] has the blob and the dirty flag of [kb]. *)
Definition untouched (kb kb' : Keyboard) : Prop :=
  config kb' = config kb
  ∧ config_needs_update kb' = config_needs_update kb.

(** Two clock readings for examples: one in range, one past 2099. *)
Definition demo_clock : datetime := mkDatetime 2025 11 4 13 37 59 2.
Definition late_clock : datetime := mkDatetime 2100 1 1 0 0 0 5.

(** ** The two device-facing runs of [main] *)

(** [Keyboard.__init__]: no blob yet, nothing to write back. *)
Definition new_keyboard (t : list event) : Keyboard := mkKeyboard t [] false.

Section Main.

Variable device : list event → read_result.
Variable budget : nat.

(** Lines 524-528 of [main], the [--time-only] run.  The result is the
    argument of [sys.exit].  [keyboard.close()] releases the interface and
    sends nothing; it is left out. *)
Definition main_time_only (now : datetime) : M (option Z) :=
  _ ← set_datetime device budget now;
  _ ← update_config device budget;
  mret (Some 0).


End Main.



Definition with_frame_count (a b : Z) (blob : list Z) : list Z :=
  <[46%nat:=b]> (<[34%nat:=a]> blob).

(** * Properties *)

(** ** Arithmetic of the bit operations *)

Lemma land_255 (x : Z) : Z.land x 0xff = x mod 256.
Proof. exact (Z.land_ones x 8 ltac:(lia)). Qed.

Lemma land_255_byte (x : Z) : 0 <= Z.land x 0xff <= 255.
Proof. rewrite land_255. pose proof (Z.mod_pos_bound x 256). lia. Qed.

Lemma shiftr_8 (x : Z) : Z.shiftr x 8 = x / 256.
Proof. exact (Z.shiftr_div_pow2 x 8 ltac:(lia)). Qed.

(** Every check of a bounded range of integers can be run. *)
Lemma forall_range (P : Z → bool) (n : Z) :
  forallb P (seqZ 0 n) = true → ∀ x, 0 <= x < n → P x = true.
Proof.
  intros H x Hx. rewrite forallb_forall in H. apply H.
  apply list_elem_of_In, elem_of_seqZ. lia.
Qed.

Lemma bcd_packed (n : Z) :
  0 <= n <= 99 → Z.lor (Z.shiftl (n / 10) 4) (n mod 10) = 16 * (n / 10) + n mod 10.
Proof.
  intros Hn.
  pose proof (forall_range
    (fun n => Z.lor (Z.shiftl (n / 10) 4) (n mod 10) =? 16 * (n / 10) + n mod 10)
    100 ltac:(vm_compute; reflexivity) n ltac:(lia)) as H.
  by apply Z.eqb_eq in H.
Qed.

(** Three fields of 5, 6 and 5 bits do not overlap: packing adds them up. *)
Lemma pack565 (a b c : Z) :
  0 <= a < 32 → 0 <= b < 64 → 0 <= c < 32 →
  Z.lor (Z.lor (Z.shiftl a 11) (Z.shiftl b 5)) c = a * 2048 + b * 32 + c.
Proof.
  intros Ha Hb Hc.
  pose proof (forall_range (fun a => forallb (fun b => forallb (fun c =>
      Z.lor (Z.lor (Z.shiftl a 11) (Z.shiftl b 5)) c =? a * 2048 + b * 32 + c)
      (seqZ 0 32)) (seqZ 0 64)) 32 ltac:(vm_compute; reflexivity) a Ha) as H.
  pose proof (forall_range _ 64 H b Hb) as H'.
  pose proof (forall_range _ 32 H' c Hc) as H''.
  by apply Z.eqb_eq in H''.
Qed.

Lemma rgb565_arith (r g b : Z) :
  rgb565 (r, g, b)
  = (r / 8) mod 32 * 2048 + (g / 4) mod 64 * 32 + (b / 8) mod 32.
Proof.
  unfold rgb565.
  rewrite !(Z.land_ones _ 5), (Z.land_ones _ 6) by lia.
  rewrite !Z.shiftr_div_pow2 by lia.
  change (2 ^ 3) with 8. change (2 ^ 2) with 4.
  change (2 ^ 5) with 32. change (2 ^ 6) with 64.
  apply pack565; apply Z.mod_pos_bound; lia.
Qed.

Lemma rgb565_range (px : pixel) : 0 <= rgb565 px < 65536.
Proof.
  destruct px as [[r g] b]. rewrite rgb565_arith.
  pose proof (Z.mod_pos_bound (r / 8) 32).
  pose proof (Z.mod_pos_bound (g / 4) 64).
  pose proof (Z.mod_pos_bound (b / 8) 32). lia.
Qed.

Lemma rgb565_of_rgb (r g b : Z) :
  is_rgb (r, g, b) →
  rgb565 (r, g, b)
  = Z.lor (Z.lor (Z.shiftl (Z.shiftr r 3) 11) (Z.shiftl (Z.shiftr g 2) 5))
          (Z.shiftr b 3).
Proof.
  intros (Hr & Hg & Hb). unfold rgb565.
  rewrite !(Z.land_ones _ 5), (Z.land_ones _ 6) by lia.
  rewrite !Z.shiftr_div_pow2 by lia.
  change (2 ^ 3) with 8. change (2 ^ 2) with 4.
  change (2 ^ 5) with 32. change (2 ^ 6) with 64.
  rewrite !Z.mod_small; [done | | |].
  all: split; [apply Z.div_pos; lia | apply Z.div_lt_upper_bound; lia].
Qed.

(** ** The BCD encoder *)

(** C7: [_int_to_bcd] returns [(n div 10) << 4 | (n mod 10)], the tens in the
    high and the units in the low nibble, for every [n] from 0 to 99, and
    raises [ValueError] for every other [n] (100 and -1 among them); it
    raises exactly when [n] is out of range. *)
Theorem int_to_bcd_spec (n : Z) :
  (0 <= n <= 99 →
     _int_to_bcd n = Ok (Z.lor (Z.shiftl (n / 10) 4) (n mod 10))
     ∧ _int_to_bcd n = Ok (16 * (n / 10) + n mod 10))
  ∧ (¬ 0 <= n <= 99 → _int_to_bcd n = Raise ValueError)
  ∧ ((∃ e, _int_to_bcd n = Raise e) ↔ ¬ 0 <= n <= 99)
  ∧ _int_to_bcd 0 = Ok 0x00
  ∧ _int_to_bcd 59 = Ok 0x59
  ∧ _int_to_bcd 99 = Ok 0x99
  ∧ _int_to_bcd 100 = Raise ValueError
  ∧ _int_to_bcd (-1) = Raise ValueError.
Proof.
  unfold _int_to_bcd at 1 2 3 4.
  split_and!; try reflexivity.
  - intros Hn. rewrite decide_True by done.
    by rewrite bcd_packed.
  - intros Hn. by rewrite decide_False.
  - destruct (decide (0 <= n <= 99)) as [Hn | Hn]; split.
    + by intros [e ?].
    + done.
    + done.
    + intros _. by exists ValueError.
Qed.

Lemma int_to_bcd_spec_witness :
  _int_to_bcd 59 = Ok 0x59 ∧ _int_to_bcd 100 = Raise ValueError.
Proof.
  destruct (int_to_bcd_spec 59) as [H59 _].
  destruct (int_to_bcd_spec 100) as (_ & H100 & _).
  split.
  - destruct H59 as [_ ->]; [lia | reflexivity].
  - apply H100. lia.
Defined.

(** ** The frame encoder *)

Lemma frame_size_value : frame_size = 65536.
Proof. reflexivity. Qed.

Lemma wire_bytes_length (px : pixel) : length (wire_bytes px) = 2%nat.
Proof. reflexivity. Qed.

Lemma wire_stream_length (frame : list pixel) :
  length (frame ≫= wire_bytes) = (2 * length frame)%nat.
Proof.
  induction frame as [|px rest IH]; [done|].
  cbn [mbind list_bind] in *. rewrite length_app, wire_bytes_length.
  cbn [length]. lia.
Qed.

Lemma array_setitem_byte (a : list Z) (i : nat) (x : Z) :
  (i < length a)%nat →
  array_setitem a i (Z.land x 0xff) = Ok (<[i := Z.land x 0xff]> a).
Proof.
  intros Hi. unfold array_setitem.
  rewrite decide_True by done.
  rewrite decide_True by apply land_255_byte. done.
Qed.

(** The loop overwrites two entries per pixel and leaves the rest alone. *)
Lemma encode_pixels_ok (frame : list pixel) :
  ∀ (idx : nat) (buf : list Z),
    (2 * (idx + length frame) ≤ length buf)%nat →
    encode_pixels frame idx buf
    = Ok (take (2 * idx) buf ++ (frame ≫= wire_bytes)
          ++ drop (2 * (idx + length frame)) buf).
Proof.
  induction frame as [|px rest IH]; intros idx buf Hlen.
  - cbn [encode_pixels mbind list_bind app length].
    rewrite Nat.add_0_r, take_drop. done.
  - cbn [length] in Hlen. cbn [encode_pixels].
    rewrite array_setitem_byte by lia. cbn [mbind outcome_bind].
    rewrite array_setitem_byte by (rewrite length_insert; lia).
    cbn [mbind outcome_bind].
    rewrite IH by (rewrite !length_insert; lia).
    f_equal. cbn [mbind list_bind length].
    set (hi := Z.land (Z.shiftr (rgb565 px) 8) 255).
    set (lo := Z.land (rgb565 px) 255).
    change (wire_bytes px) with [hi; lo].
    replace (2 * S idx)%nat with (S (S (idx * 2))) by lia.
    replace (idx * 2 + 1)%nat with (S (idx * 2)) by lia.
    rewrite (take_S_r _ (S (idx * 2)) lo)
      by (apply list_lookup_insert_eq; rewrite length_insert; lia).
    rewrite (take_S_r _ (idx * 2) hi)
      by (rewrite list_lookup_insert_ne by lia;
          apply list_lookup_insert_eq; lia).
    rewrite !take_insert_ge by lia.
    rewrite !drop_insert_lt by lia.
    replace (2 * idx)%nat with (idx * 2)%nat by lia.
    replace (2 * (S idx + length rest))%nat
      with (2 * (idx + S (length rest)))%nat by lia.
    rewrite <- !app_assoc. done.
Qed.

Lemma encode_frame_ok (frame : list pixel) :
  (2 * length frame ≤ Z.to_nat frame_size)%nat →
  encode_frame frame
  = Ok ((frame ≫= wire_bytes)
        ++ replicate (Z.to_nat frame_size - 2 * length frame) 0).
Proof.
  unfold encode_frame. generalize (Z.to_nat frame_size). intros n Hlen.
  rewrite encode_pixels_ok by (rewrite length_replicate; lia).
  rewrite drop_replicate. done.
Qed.

Lemma wire_stream_lookup (frame : list pixel) (i : nat) (px : pixel) :
  frame !! i = Some px →
  (frame ≫= wire_bytes) !! (2 * i)%nat
    = Some (Z.land (Z.shiftr (rgb565 px) 8) 0xff)
  ∧ (frame ≫= wire_bytes) !! (2 * i + 1)%nat = Some (Z.land (rgb565 px) 0xff).
Proof.
  revert i. induction frame as [|q rest IH]; intros i Hi; [done|].
  destruct i as [|i].
  - injection Hi as ->. done.
  - cbn in Hi. destruct (IH i Hi) as [H1 H2].
    replace (2 * S i)%nat with (S (S (2 * i))) by lia.
    replace (S (S (2 * i)) + 1)%nat with (S (S (2 * i + 1))) by lia.
    done.
Qed.

Lemma frame_size_nat : Z.of_nat (Z.to_nat frame_size) = 65536.
Proof. rewrite frame_size_value. apply Z2Nat.id. lia. Qed.

Lemma frame_size_ceil :
  (DISPLAY_WIDTH * DISPLAY_HEIGHT * 2 + 0x8000 - 1) / 0x8000 * 0x8000 = 65536.
Proof. reflexivity. Qed.

(** C2: for a frame of exactly 240 x 135 RGB pixels [encode_frame] returns a
    buffer of [ceil(W*H*2 / 0x8000) * 0x8000] bytes, a multiple of 32 KiB;
    bytes [2i] and [2i+1] are the high and the low byte of the RGB565 value
    [(r>>3)<<11 | (g>>2)<<5 | (b>>3)] of pixel [i]; every byte from position
    [2*W*H] on is zero. *)
Theorem encode_frame_layout (frame : list pixel) :
  Z.of_nat (length frame) = DISPLAY_WIDTH * DISPLAY_HEIGHT →
  Forall is_rgb frame →
  ∃ buf : list Z,
    encode_frame frame = Ok buf
    ∧ Z.of_nat (length buf)
      = (DISPLAY_WIDTH * DISPLAY_HEIGHT * 2 + 0x8000 - 1) / 0x8000 * 0x8000
    ∧ Z.of_nat (length buf) mod 0x8000 = 0
    ∧ (∀ (i : nat) (r g b : Z),
         frame !! i = Some (r, g, b) →
         let v := Z.lor (Z.lor (Z.shiftl (Z.shiftr r 3) 11)
                               (Z.shiftl (Z.shiftr g 2) 5))
                        (Z.shiftr b 3) in
         buf !! (2 * i)%nat = Some (v / 256)
         ∧ buf !! (2 * i + 1)%nat = Some (v mod 256))
    ∧ (∀ j : nat,
         2 * DISPLAY_WIDTH * DISPLAY_HEIGHT <= Z.of_nat j < Z.of_nat (length buf) →
         buf !! j = Some 0).
Proof.
  unfold DISPLAY_WIDTH, DISPLAY_HEIGHT. intros Hlen Hrgb.
  pose proof frame_size_nat as HN.
  pose proof (wire_stream_length frame) as Hw.
  rewrite encode_frame_ok by lia.
  set (N := Z.to_nat frame_size) in *. clearbody N.
  eexists. split; [reflexivity|].
  assert (Hbuf : Z.of_nat (length ((frame ≫= wire_bytes)
                   ++ replicate (N - 2 * length frame) 0)) = 65536).
  { rewrite length_app, length_replicate. lia. }
  rewrite Hbuf. split_and!.
  - reflexivity.
  - reflexivity.
  - intros i r g b Hi. cbv zeta.
    assert (Hlt : (i < length frame)%nat) by (eapply lookup_lt_Some; done).
    destruct (wire_stream_lookup frame i _ Hi) as [Hhi Hlo].
    rewrite !lookup_app_l by lia. rewrite Hhi, Hlo.
    assert (Hpx : is_rgb (r, g, b)).
    { rewrite Forall_lookup in Hrgb. by eapply Hrgb. }
    pose proof (rgb565_range (r, g, b)) as Hrange.
    rewrite (rgb565_of_rgb r g b Hpx) in *.
    set (v := Z.lor _ _) in *.
    rewrite !land_255, shiftr_8.
    rewrite (Z.mod_small (v / 256)); [done|].
    split; [apply Z.div_pos; lia | apply Z.div_lt_upper_bound; lia].
  - intros j Hj.
    rewrite lookup_app_r by lia.
    apply lookup_replicate_2. lia.
Qed.

Lemma encode_frame_layout_witness :
  ∃ buf : list Z,
    encode_frame (replicate (Z.to_nat 32400) (255, 255, 255)) = Ok buf
    ∧ Z.of_nat (length buf) = 65536
    ∧ buf !! 0%nat = Some 0xff
    ∧ buf !! 1%nat = Some 0xff
    ∧ buf !! Z.to_nat 64800 = Some 0.
Proof.
  destruct (encode_frame_layout (replicate (Z.to_nat 32400) (255, 255, 255)))
    as (buf & Hbuf & Hlen & _ & Hpix & Hpad).
  - rewrite length_replicate. reflexivity.
  - apply Forall_replicate. unfold is_rgb. lia.
  - exists buf. split; [exact Hbuf|]. split; [exact Hlen|].
    destruct (Hpix 0%nat 255 255 255) as [H0 H1].
    { apply lookup_replicate_2. lia. }
    split; [exact H0|]. split; [exact H1|].
    apply Hpad. rewrite Hlen, frame_size_ceil.
    unfold DISPLAY_WIDTH, DISPLAY_HEIGHT. lia.
Defined.

Lemma encode_frame_single (px : pixel) :
  ∃ buf : list Z, encode_frame [px] = Ok buf ∧ take 2 buf = wire_bytes px.
Proof.
  pose proof frame_size_nat as HN.
  rewrite encode_frame_ok by (cbn [length]; lia).
  eexists. split; [reflexivity|]. reflexivity.
Qed.

(** C6, as the code has it: white encodes to 0xFFFF and black to 0x0000; the
    bits below the retained precision are dropped, not rounded, so (7,3,7)
    encodes to 0x0000, while (8,4,8) has the lowest retained bit of every
    channel set and encodes to 0x0821. *)
Theorem rgb565_truncates :
  rgb565 (255, 255, 255) = 0xFFFF
  ∧ rgb565 (0, 0, 0) = 0x0000
  ∧ rgb565 (8, 4, 8) = 0x0821
  ∧ rgb565 (7, 3, 7) = 0x0000
  ∧ (∀ r g b : Z,
       rgb565 (r, g, b)
       = (r / 8) mod 32 * 2048 + (g / 4) mod 64 * 32 + (b / 8) mod 32)
  ∧ (∃ buf, encode_frame [(255, 255, 255)] = Ok buf ∧ take 2 buf = [0xff; 0xff])
  ∧ (∃ buf, encode_frame [(0, 0, 0)] = Ok buf ∧ take 2 buf = [0x00; 0x00])
  ∧ (∃ buf, encode_frame [(8, 4, 8)] = Ok buf ∧ take 2 buf = [0x08; 0x21])
  ∧ (∃ buf, encode_frame [(7, 3, 7)] = Ok buf ∧ take 2 buf = [0x00; 0x00]).
Proof.
  split_and!; try reflexivity.
  - apply rgb565_arith.
  - apply (encode_frame_single (255, 255, 255)).
  - apply (encode_frame_single (0, 0, 0)).
  - apply (encode_frame_single (8, 4, 8)).
  - apply (encode_frame_single (7, 3, 7)).
Qed.

(** C6 as written fails: the encoder does not map (8,4,8) to 0x0000. *)
Lemma rgb565_8_4_8_not_zero :
  ¬ (rgb565 (255, 255, 255) = 0xFFFF
     ∧ rgb565 (0, 0, 0) = 0x0000
     ∧ rgb565 (8, 4, 8) = 0x0000).
Proof. intros (_ & _ & H). vm_compute in H. discriminate H. Qed.

(** ** The request frame *)

(** The buffer written out entry by entry. *)
Lemma request_frame_unfold (c : Z) (p : list Z) (o : Z) :
  request_frame c p o
  = let tail :=
      c :: Z.of_nat (length p)
        :: Z.land o 0xff :: Z.land (Z.shiftr o 8) 0xff
        :: Z.land (Z.shiftr o 16) 0xff
        :: p ++ replicate (56 - length p) 0 in
    let checksum := foldr Z.add 0 tail in
    0x04 :: Z.land checksum 0xff :: Z.land (Z.shiftr checksum 8) 0xff :: tail.
Proof.
  unfold request_frame.
  change (replicate 64 0) with ([0; 0; 0; 0; 0; 0; 0; 0] ++ replicate 56 0).
  cbn [app insert list_insert take drop Nat.add].
  rewrite drop_replicate. reflexivity.
Qed.

Lemma request_frame_length (c : Z) (p : list Z) (o : Z) :
  (length p ≤ 56)%nat → length (request_frame c p o) = 64%nat.
Proof.
  intros Hp. rewrite request_frame_unfold. cbn [length].
  rewrite length_app, length_replicate. lia.
Qed.

Lemma request_frame_header (c : Z) (p : list Z) (o : Z) :
  ∃ b1 b2, take 3 (request_frame c p o) = [0x04; b1; b2].
Proof. rewrite request_frame_unfold. by eexists _, _. Qed.

(** Three bytes hold a 24-bit value, least significant byte first. *)
Lemma le24 (o : Z) :
  0 <= o < 2 ^ 24 →
  Z.land o 0xff + 256 * Z.land (Z.shiftr o 8) 0xff
  + 65536 * Z.land (Z.shiftr o 16) 0xff = o.
Proof.
  intros Ho. rewrite !land_255, !Z.shiftr_div_pow2 by lia.
  change (2 ^ 8) with 256. change (2 ^ 16) with 65536.
  change (2 ^ 24) with 16777216 in Ho.
  Z.div_mod_to_equations. lia.
Qed.

(** Two bytes hold a value modulo 65536, least significant byte first. *)
Lemma le16 (s : Z) :
  Z.land s 0xff + 256 * Z.land (Z.shiftr s 8) 0xff = s mod 65536.
Proof.
  rewrite !land_255, shiftr_8. Z.div_mod_to_equations. lia.
Qed.

(** ** The receive loop touches nothing but the port's read side *)

Lemma omap_snoc {A B} (f : A → option B) (l : list A) (x : A) :
  omap f (l ++ [x]) = omap f l ++ from_option (fun y => [y]) [] (f x).
Proof.
  rewrite omap_app. cbn. by destruct (f x).
Qed.

Lemma writes_read (t : list event) (r : read_result) :
  writes (t ++ [Read r]) = writes t.
Proof. unfold writes. rewrite omap_snoc. cbn. apply app_nil_r. Qed.

Lemma writes_slept (t : list event) : writes (t ++ [Slept]) = writes t.
Proof. unfold writes. rewrite omap_snoc. cbn. apply app_nil_r. Qed.

Lemma writes_wrote (t : list event) (f : list Z) :
  writes (t ++ [Wrote f]) = writes t ++ [f].
Proof. unfold writes. by rewrite omap_snoc. Qed.

Lemma receive_frame (device : list event → read_result) (n : nat)
    (buffer : list Z) :
  ∀ kb : Keyboard,
    let kb' := (receive device n buffer kb).2 in
    writes (usb kb') = writes (usb kb)
    ∧ config kb' = config kb
    ∧ config_needs_update kb' = config_needs_update kb.
Proof.
  induction n as [|n IH]; intros kb; [done|].
  cbn [receive]. unfold mbind, M_bind, USBDevice_read.
  destruct (device (usb kb)) as [|bs] eqn:Hdev.
  - cbn. by rewrite writes_read.
  - case_decide.
    + cbn. by rewrite writes_read.
    + destruct (IH (set_usb (usb kb ++ [Read (Packet bs)]) kb))
        as (Hw & Hc & Hd).
      cbv zeta in *. rewrite Hw, Hc, Hd. cbn. by rewrite writes_read.
Qed.

Lemma send_command_run (device : list event → read_result) (budget : nat)
    (c : Z) (p : list Z) (o : Z) (kb : Keyboard) :
  0 < c <= 0xff → (length p ≤ 56)%nat →
  send_command device budget c p o kb
  = receive device budget (request_frame c p o)
      (set_usb ((usb kb ++ if decide (c = 2) then [Slept] else [])
                ++ [Wrote (request_frame c p o)]) kb).
Proof.
  intros Hc Hp. unfold send_command.
  rewrite (decide_False (P := ¬ _)) by (intros H; apply H; lia).
  rewrite (decide_False (P := (56 < _)%nat)) by lia.
  pose proof (request_frame_length c p o Hp) as Hlen.
  set (f := request_frame c p o) in *.
  unfold mbind, M_bind, USBDevice_write.
  rewrite (decide_False (P := (length f < 64)%nat)) by lia.
  destruct (decide (c = 2)); cbn; [done|].
  by rewrite app_nil_r.
Qed.

(** C1: for a command id from 1 to 255, a payload of at most 56 bytes and an
    offset below 2^24, [send_command] writes exactly one frame; it has 64
    entries: 0x04, the checksum, the command id, the payload length, the
    offset in three bytes least significant first, the payload, and zeros to
    the end; the checksum is two bytes, least significant first, holding the
    sum of entries 3 to 63 modulo 65536. *)
Theorem send_command_request_frame
    (device : list event → read_result) (budget : nat)
    (c : Z) (p : list Z) (o : Z) (kb : Keyboard) :
  1 <= c <= 255 → (length p ≤ 56)%nat → 0 <= o < 2 ^ 24 →
  ∃ (f : list Z) (b1 b2 b5 b6 b7 : Z),
    writes (usb (send_command device budget c p o kb).2)
      = writes (usb kb) ++ [f]
    ∧ length f = 64%nat
    ∧ take 8 f = [0x04; b1; b2; c; Z.of_nat (length p); b5; b6; b7]
    ∧ is_byte b5 ∧ is_byte b6 ∧ is_byte b7
    ∧ b5 + 256 * b6 + 65536 * b7 = o
    ∧ take (length p) (drop 8 f) = p
    ∧ drop (8 + length p) f = replicate (56 - length p) 0
    ∧ is_byte b1 ∧ is_byte b2
    ∧ b1 + 256 * b2 = foldr Z.add 0 (drop 3 f) mod 65536.
Proof.
  intros Hc Hp Ho.
  exists (request_frame c p o).
  rewrite send_command_run by lia.
  destruct (receive_frame device budget (request_frame c p o)
              (set_usb ((usb kb ++ if decide (c = 2) then [Slept] else [])
                        ++ [Wrote (request_frame c p o)]) kb)) as (Hw & _).
  cbv zeta in Hw. rewrite Hw. clear Hw. cbn [usb set_usb].
  rewrite writes_wrote.
  assert (Hpre : writes (usb kb ++ if decide (c = 2) then [Slept] else [])
                 = writes (usb kb)).
  { case_decide; [apply writes_slept | by rewrite app_nil_r]. }
  rewrite Hpre. clear Hpre.
  rewrite request_frame_length by done.
  rewrite request_frame_unfold. cbv zeta.
  set (tail := c :: _).
  eexists _, _, _, _, _.
  split; [reflexivity|]. split; [reflexivity|].
  split; [reflexivity|].
  unfold is_byte. split_and!; try apply land_255_byte.
  - by apply le24.
  - subst tail. cbn [drop]. by rewrite drop_0, take_app_length.
  - subst tail. cbn [Nat.add drop]. by rewrite drop_app_length.
  - cbn [drop]. apply le16.
Qed.

Lemma send_command_request_frame_witness :
  ∃ (f : list Z) (b1 b2 b5 b6 b7 : Z),
    writes (usb (send_command (fun _ => Timeout) 1 0x21 [1; 2; 3] 0x012345
                   (mkKeyboard [] [] false)).2) = [] ++ [f]
    ∧ length f = 64%nat
    ∧ take 8 f = [0x04; b1; b2; 0x21; 3; b5; b6; b7]
    ∧ is_byte b5 ∧ is_byte b6 ∧ is_byte b7
    ∧ b5 + 256 * b6 + 65536 * b7 = 0x012345
    ∧ take 3 (drop 8 f) = [1; 2; 3]
    ∧ drop 11 f = replicate 53 0
    ∧ is_byte b1 ∧ is_byte b2
    ∧ b1 + 256 * b2 = foldr Z.add 0 (drop 3 f) mod 65536.
Proof.
  apply (send_command_request_frame (fun _ => Timeout) 1 0x21 [1; 2; 3]
           0x012345 (mkKeyboard [] [] false)).
  - lia.
  - cbn [length]. lia.
  - lia.
Defined.

(** ** The field setters *)

Lemma bind_run {A B} (m : M A) (f : A → M B) (kb kb' : Keyboard) (a : A) :
  m kb = (Ok a, kb') → (m ≫= f) kb = f a kb'.
Proof. intros H. unfold mbind, M_bind. by rewrite H. Qed.

Lemma config_setitem_ok (i : nat) (v : Z) (kb : Keyboard) :
  (i < length (config kb))%nat →
  config_setitem i v kb = (Ok tt, set_config (<[i:=v]> (config kb)) kb).
Proof.
  intros Hi. unfold config_setitem, mbind, M_bind, get_config, lift, list_setitem.
  by rewrite decide_True.
Qed.

Lemma config_setitem_state (i : nat) (v : Z) (kb : Keyboard) :
  (config_setitem i v kb).2 = set_config (<[i:=v]> (config kb)) kb.
Proof.
  unfold config_setitem, mbind, M_bind, get_config, lift, list_setitem.
  case_decide as Hi; [done|].
  cbn. rewrite list_insert_ge by lia. by destruct kb.
Qed.

Lemma rewrites_only_refl (S : nat → Prop) (kb : Keyboard) :
  rewrites_only S kb kb.
Proof. by intros _. Qed.

Lemma rewrites_only_trans (S : nat → Prop) (kb1 kb2 kb3 : Keyboard) :
  rewrites_only S kb1 kb2 → rewrites_only S kb2 kb3 → rewrites_only S kb1 kb3.
Proof.
  intros H12 H23 Hne. destruct (H12 Hne) as (Hu & Hl & Hi).
  destruct H23 as (Hu' & Hl' & Hi').
  { intros Hnil. apply Hne. apply length_zero_iff_nil.
    rewrite <- Hl, Hnil. done. }
  split_and!; [congruence | congruence |].
  intros i HS. rewrite Hi', Hi; done.
Qed.

Lemma keeps_bind {A B} (S : nat → Prop) (m : M A) (f : A → M B) :
  keeps S m → (∀ a, keeps S (f a)) → keeps S (m ≫= f).
Proof.
  intros Hm Hf kb. specialize (Hm kb). unfold mbind, M_bind.
  destruct (m kb) as [[a | e |] kb1]; cbn in *; [|done..].
  eapply rewrites_only_trans; [exact Hm | apply Hf].
Qed.

Lemma keeps_ret {A} (S : nat → Prop) (a : A) : keeps S (mret a).
Proof. intros kb. apply rewrites_only_refl. Qed.

Lemma keeps_lift {A} (S : nat → Prop) (o : outcome A) : keeps S (lift o).
Proof. intros kb. apply rewrites_only_refl. Qed.

Lemma keeps_flag (S : nat → Prop) (b : bool) :
  keeps S (put_config_needs_update b).
Proof. intros kb _. done. Qed.

Lemma keeps_setitem (S : nat → Prop) (i : nat) (v : Z) :
  S i → keeps S (config_setitem i v).
Proof.
  intros HS kb _. rewrite config_setitem_state. cbn.
  split_and!; [done | apply length_insert |].
  intros j Hj. apply list_lookup_insert_ne. by intros ->.
Qed.

Section Setters.

Variable device : list event → read_result.
Variable budget : nat.

Lemma ensure_config_loaded (kb : Keyboard) :
  config kb ≠ [] → ensure_config device budget kb = (Ok tt, kb).
Proof.
  intros Hne. unfold ensure_config, mbind, M_bind, get_config.
  by destruct (config kb).
Qed.

Lemma keeps_ensure_config (S : nat → Prop) :
  keeps S (ensure_config device budget).
Proof.
  intros kb Hne. rewrite ensure_config_loaded by done.
  by apply rewrites_only_refl.
Qed.

Lemma set_datetime_keeps (now : datetime) :
  keeps (fun i => 35 ≤ i ≤ 41)%nat (set_datetime device budget now).
Proof.
  unfold set_datetime, DATE_OFFSET.
  repeat first
    [ apply keeps_ensure_config | apply keeps_flag | apply keeps_lift
    | apply keeps_setitem; cbn; lia
    | apply keeps_bind; [|intros ?] ].
Qed.

Lemma set_animation_delay_keeps (ms : Z) :
  keeps (fun i => 43 ≤ i ≤ 44)%nat (set_animation_delay device budget ms).
Proof.
  unfold set_animation_delay, DELAY_OFFSET.
  repeat first
    [ apply keeps_ensure_config | apply keeps_flag | apply keeps_lift
    | apply keeps_setitem; cbn; lia
    | apply keeps_bind; [|intros ?] ].
Qed.

Lemma set_frame_count_keeps (a b : Z) :
  keeps (fun i => i = 34 ∨ i = 46)%nat (set_frame_count device budget a b).
Proof.
  unfold set_frame_count, FRAMES_1_OFFSET, FRAMES_2_OFFSET.
  repeat first
    [ apply keeps_ensure_config | apply keeps_flag | apply keeps_lift
    | apply keeps_setitem; cbn; lia
    | apply keeps_bind; [|intros ?] ].
Qed.

End Setters.

Section SetterRuns.

Variable device : list event → read_result.
Variable budget : nat.

Lemma loaded_nonempty (kb : Keyboard) (n : nat) :
  (n < length (config kb))%nat → config kb ≠ [].
Proof. intros Hn Hnil. rewrite Hnil in Hn. cbn in Hn. lia. Qed.

Lemma set_frame_count_run (a b : Z) (kb : Keyboard) :
  (46 < length (config kb))%nat →
  set_frame_count device budget a b kb
  = (Ok tt, mkKeyboard (usb kb) (<[46%nat:=b]> (<[34%nat:=a]> (config kb))) true).
Proof.
  intros Hlen. unfold set_frame_count, FRAMES_1_OFFSET, FRAMES_2_OFFSET.
  rewrite (bind_run _ _ _ _ _ (ensure_config_loaded device budget kb
             (loaded_nonempty kb _ Hlen))).
  rewrite (bind_run _ _ _ _ _ (config_setitem_ok 34 a kb ltac:(lia))).
  erewrite bind_run
    by (apply config_setitem_ok; cbn; rewrite length_insert; lia).
  reflexivity.
Qed.

Lemma set_animation_delay_run (ms : Z) (kb : Keyboard) :
  (44 < length (config kb))%nat →
  set_animation_delay device budget ms kb
  = (Ok tt,
     mkKeyboard (usb kb)
       (<[44%nat:=Z.land (Z.shiftr (clamp_delay ms) 8) 0xff]>
          (<[43%nat:=Z.land (clamp_delay ms) 0xff]> (config kb)))
       true).
Proof.
  intros Hlen. unfold set_animation_delay, DELAY_OFFSET.
  rewrite (bind_run _ _ _ _ _ (ensure_config_loaded device budget kb
             (loaded_nonempty kb _ Hlen))).
  cbv zeta. fold (clamp_delay ms).
  erewrite bind_run by (apply config_setitem_ok; lia).
  erewrite bind_run
    by (apply config_setitem_ok; cbn; rewrite length_insert; lia).
  reflexivity.
Qed.

Lemma int_to_bcd_ok (n : Z) :
  0 <= n <= 99 → _int_to_bcd n = Ok (16 * (n / 10) + n mod 10).
Proof.
  intros Hn. unfold _int_to_bcd. rewrite decide_True by done.
  by rewrite bcd_packed.
Qed.

End SetterRuns.

Section SetterTheorems.

Variable device : list event → read_result.
Variable budget : nat.

Lemma lift_ok {A} (o : outcome A) (a : A) (kb : Keyboard) :
  o = Ok a → lift o kb = (Ok a, kb).
Proof. by intros ->. Qed.

Lemma set_datetime_run (now : datetime) (kb : Keyboard) :
  encodable now → (41 < length (config kb))%nat →
  set_datetime device budget now kb
  = (Ok tt,
     mkKeyboard (usb kb)
       (<[41%nat:=bcd (year now - 2000)]>
          (<[40%nat:=bcd (month now)]>
             (<[39%nat:=bcd (day now)]>
                (<[38%nat:=isoweekday now]>
                   (<[37%nat:=bcd (hour now)]>
                      (<[36%nat:=bcd (minute now)]>
                         (<[35%nat:=bcd (second now)]> (config kb))))))))
       true).
Proof.
  intros (Hs & Hmi & Hh & Hd & Hmo & Hy) Hlen.
  unfold set_datetime, DATE_OFFSET.
  rewrite (bind_run _ _ _ _ _ (ensure_config_loaded device budget kb
             (loaded_nonempty kb _ Hlen))).
  repeat first
    [ erewrite bind_run by (apply lift_ok, int_to_bcd_ok; lia)
    | erewrite bind_run
        by (apply config_setitem_ok; cbn [config set_config];
            rewrite ?length_insert; lia) ].
  reflexivity.
Qed.

(** C8: on a loaded 48-byte blob every setter leaves the port alone, keeps
    the blob's length and rewrites only its own bytes: [set_datetime] the
    seven at 35..41, [set_animation_delay] the two at 43..44, with its
    argument clamped into 60..65535 and stored least significant byte
    first, [set_frame_count] those at 34 and 46; each sets the dirty
    flag. *)
Theorem setters_rewrite_designated_bytes (kb : Keyboard) :
  length (config kb) = 48%nat →
  (∀ now : datetime,
     only_changes (fun i => 35 ≤ i ≤ 41)%nat kb
       (set_datetime device budget now kb).2
     ∧ (encodable now →
        set_datetime device budget now kb
        = (Ok tt,
           mkKeyboard (usb kb)
             (<[41%nat:=bcd (year now - 2000)]>
                (<[40%nat:=bcd (month now)]>
                   (<[39%nat:=bcd (day now)]>
                      (<[38%nat:=isoweekday now]>
                         (<[37%nat:=bcd (hour now)]>
                            (<[36%nat:=bcd (minute now)]>
                               (<[35%nat:=bcd (second now)]>
                                  (config kb))))))))
             true)))
  ∧ (∀ ms : Z,
       only_changes (fun i => 43 ≤ i ≤ 44)%nat kb
         (set_animation_delay device budget ms kb).2
       ∧ ∃ lo hi : Z,
           set_animation_delay device budget ms kb
           = (Ok tt,
              mkKeyboard (usb kb)
                (<[44%nat:=hi]> (<[43%nat:=lo]> (config kb))) true)
           ∧ is_byte lo ∧ is_byte hi
           ∧ lo + 256 * hi = clamp_delay ms
           ∧ 60 <= clamp_delay ms <= 65535
           ∧ (ms <= 60 → clamp_delay ms = 60)
           ∧ (65535 <= ms → clamp_delay ms = 65535)
           ∧ (60 <= ms <= 65535 → clamp_delay ms = ms))
  ∧ (∀ a b : Z,
       only_changes (fun i => i = 34 ∨ i = 46)%nat kb
         (set_frame_count device budget a b kb).2
       ∧ set_frame_count device budget a b kb
         = (Ok tt,
            mkKeyboard (usb kb)
              (<[46%nat:=b]> (<[34%nat:=a]> (config kb))) true)).
Proof.
  intros Hlen.
  assert (Hne : config kb ≠ []) by (apply (loaded_nonempty kb 0); lia).
  split_and!.
  - intros now. split.
    + by apply set_datetime_keeps.
    + intros Hnow. apply set_datetime_run; [done | lia].
  - intros ms. split.
    + by apply set_animation_delay_keeps.
    + eexists _, _. split; [apply set_animation_delay_run; lia|].
      unfold is_byte. split_and!; try apply land_255_byte.
      * rewrite le16. apply Z.mod_small. unfold clamp_delay. lia.
      * unfold clamp_delay. lia.
      * unfold clamp_delay. lia.
      * unfold clamp_delay. lia.
      * unfold clamp_delay. lia.
      * unfold clamp_delay. lia.
  - intros a b. split.
    + by apply set_frame_count_keeps.
    + apply set_frame_count_run. lia.
Qed.

(** C10: [set_frame_count] validates nothing: on a loaded blob it succeeds
    for every pair of integers, negative ones, ones above 255 and totals
    above 90 included, stores both verbatim at 34 and 46 and sets the dirty
    flag. *)
Theorem set_frame_count_unchecked (first_count second_count : Z)
    (kb : Keyboard) :
  (46 < length (config kb))%nat →
  ∃ kb' : Keyboard,
    set_frame_count device budget first_count second_count kb = (Ok tt, kb')
    ∧ config kb' !! 34%nat = Some first_count
    ∧ config kb' !! 46%nat = Some second_count
    ∧ config_needs_update kb' = true
    ∧ length (config kb') = length (config kb)
    ∧ usb kb' = usb kb.
Proof.
  intros Hlen. eexists. split; [by apply set_frame_count_run|].
  cbn [config config_needs_update usb].
  split_and!; [| | done | | done].
  - rewrite list_lookup_insert_ne by lia.
    apply list_lookup_insert_eq. lia.
  - apply list_lookup_insert_eq. rewrite length_insert. lia.
  - by rewrite !length_insert.
Qed.

End SetterTheorems.

Lemma setters_rewrite_designated_bytes_witness :
  set_frame_count silent_device 0 3 4 blank_keyboard
  = (Ok tt, mkKeyboard [] (<[46%nat:=4]> (<[34%nat:=3]> (replicate 48 0))) true)
  ∧ only_changes (fun i => 43 ≤ i ≤ 44)%nat blank_keyboard
      (set_animation_delay silent_device 0 10 blank_keyboard).2.
Proof.
  destruct (setters_rewrite_designated_bytes silent_device 0 blank_keyboard)
    as (_ & Hdelay & Hcount).
  - reflexivity.
  - split.
    + apply (Hcount 3 4).
    + apply (Hdelay 10).
Defined.

Lemma set_frame_count_unchecked_witness :
  ∃ kb' : Keyboard,
    set_frame_count silent_device 0 (-1) 300 blank_keyboard = (Ok tt, kb')
    ∧ config kb' !! 34%nat = Some (-1)
    ∧ config kb' !! 46%nat = Some 300
    ∧ config_needs_update kb' = true
    ∧ length (config kb') = length (config blank_keyboard)
    ∧ usb kb' = usb blank_keyboard.
Proof.
  apply (set_frame_count_unchecked silent_device 0 (-1) 300 blank_keyboard).
  cbn. lia.
Defined.

(** ** The receive loop *)

Section Receive.

Variable device : list event → read_result.

Lemma receive_step (n : nat) (buffer : list Z) (kb : Keyboard) :
  receive device (S n) buffer kb
  = match device (usb kb) with
    | Timeout =>
        (Raise USBTimeoutError, set_usb (usb kb ++ [Read Timeout]) kb)
    | Packet bs =>
        if decide (take 3 bs = take 3 buffer)
        then (Ok (drop 4 bs), set_usb (usb kb ++ [Read (Packet bs)]) kb)
        else receive device n buffer
               (set_usb (usb kb ++ [Read (Packet bs)]) kb)
    end.
Proof.
  cbn [receive]. unfold mbind, M_bind, USBDevice_read.
  destruct (device (usb kb)) as [|bs]; [done|].
  by case_decide.
Qed.

Lemma receive_finishes_settles (buffer : list Z) (n : nat) :
  ∀ kb : Keyboard,
    (receive device n buffer kb).1 ≠ Unfinished →
    settles device buffer (usb kb).
Proof.
  induction n as [|n IH]; intros kb Hfin; [done|].
  rewrite receive_step in Hfin.
  destruct (device (usb kb)) as [|bs] eqn:Hdev.
  - by apply settles_timeout.
  - case_decide as Hhdr.
    + by eapply settles_match.
    + eapply settles_skip; [done | done |].
      apply (IH _ Hfin).
Qed.

Lemma settles_receive_finishes (buffer : list Z) (t : list event) :
  settles device buffer t →
  ∀ kb : Keyboard, usb kb = t →
    ∃ n : nat, ∀ budget : nat, (n ≤ budget)%nat →
      (receive device budget buffer kb).1 ≠ Unfinished.
Proof.
  induction 1 as [t Hdev | t bs Hdev Hhdr | t bs Hdev Hhdr _ IH];
    intros kb Hkb; subst t.
  - exists 1%nat. intros [|b] Hb; [lia|].
    rewrite receive_step, Hdev. done.
  - exists 1%nat. intros [|b] Hb; [lia|].
    rewrite receive_step, Hdev, decide_True by done. done.
  - destruct (IH (set_usb (usb kb ++ [Read (Packet bs)]) kb) eq_refl)
      as [n Hn].
    exists (S n). intros [|b] Hb; [lia|].
    rewrite receive_step, Hdev, decide_False by done.
    apply Hn. lia.
Qed.

Lemma receive_outcome (buffer : list Z) (n : nat) :
  ∀ (kb kb' : Keyboard) (out : outcome (list Z)),
    receive device n buffer kb = (out, kb') →
    out = Unfinished
    ∨ (out = Raise USBTimeoutError ∧ last (usb kb') = Some (Read Timeout))
    ∨ ∃ bs : list Z,
        out = Ok (drop 4 bs) ∧ take 3 bs = take 3 buffer
        ∧ last (usb kb') = Some (Read (Packet bs)).
Proof.
  induction n as [|n IH]; intros kb kb' out Hrun.
  - left. cbn in Hrun. by injection Hrun as <- _.
  - rewrite receive_step in Hrun.
    destruct (device (usb kb)) as [|bs] eqn:Hdev.
    + injection Hrun as <- <-. right. left.
      cbn. by rewrite last_snoc.
    + case_decide as Hhdr.
      * injection Hrun as <- <-. right. right. exists bs.
        cbn. by rewrite last_snoc.
      * by eapply IH.
Qed.

End Receive.

Lemma send_command_valid (device : list event → read_result) (budget : nat)
    (c : Z) (p : list Z) (o : Z) (kb : Keyboard) :
  0 < c <= 255 → (length p ≤ 56)%nat →
  send_command device budget c p o kb
  = receive device budget (request_frame c p o)
      (set_usb (after_write c p o (usb kb)) kb).
Proof. intros Hc Hp. by apply send_command_run. Qed.

Lemma chatty_never_settles (c : Z) (p : list Z) (o : Z) (t : list event) :
  ¬ settles chatty_device (request_frame c p o) t.
Proof.
  induction 1 as [t Hdev | t bs Hdev Hhdr | t bs Hdev Hhdr _ IH].
  - discriminate Hdev.
  - injection Hdev as <-.
    destruct (request_frame_header c p o) as (b1 & b2 & Hf).
    rewrite Hf in Hhdr. discriminate Hhdr.
  - exact IH.
Qed.

(** C9, as the code has it: every read carries its own timeout and the first
    one that expires is raised at once, without a retry; packets that do not
    echo the request are discarded without any bound, so a call of
    [send_command] ends (in a payload or in the timeout error) exactly when
    the device, after finitely many such packets, lets a read time out or
    sends the echo. *)
Theorem send_command_ends_iff_device_settles
    (device : list event → read_result) (c : Z) (p : list Z) (o : Z)
    (kb : Keyboard) :
  0 < c <= 255 → (length p ≤ 56)%nat →
  (device (after_write c p o (usb kb)) = Timeout →
   ∀ budget : nat,
     send_command device (S budget) c p o kb
     = (Raise USBTimeoutError,
        set_usb (after_write c p o (usb kb) ++ [Read Timeout]) kb))
  ∧ ((∃ budget : nat, (send_command device budget c p o kb).1 ≠ Unfinished)
     ↔ settles device (request_frame c p o) (after_write c p o (usb kb)))
  ∧ (settles device (request_frame c p o) (after_write c p o (usb kb)) →
     ∃ n : nat, ∀ budget : nat, (n ≤ budget)%nat →
       (send_command device budget c p o kb).1 ≠ Unfinished)
  ∧ (∀ (budget : nat) (out : outcome (list Z)) (kb' : Keyboard),
       send_command device budget c p o kb = (out, kb') →
       out = Unfinished
       ∨ (out = Raise USBTimeoutError ∧ last (usb kb') = Some (Read Timeout))
       ∨ ∃ bs : list Z,
           out = Ok (drop 4 bs)
           ∧ take 3 bs = take 3 (request_frame c p o)
           ∧ last (usb kb') = Some (Read (Packet bs))).
Proof.
  intros Hc Hp. split_and!.
  - intros Hdev budget. rewrite send_command_valid by done.
    rewrite receive_step. cbn [usb set_usb]. by rewrite Hdev.
  - split.
    + intros [budget Hfin]. rewrite send_command_valid in Hfin by done.
      by apply receive_finishes_settles in Hfin.
    + intros Hset.
      destruct (settles_receive_finishes device _ _ Hset
                  (set_usb (after_write c p o (usb kb)) kb) eq_refl)
        as [n Hn].
      exists n. rewrite send_command_valid by done. by apply Hn.
  - intros Hset.
    destruct (settles_receive_finishes device _ _ Hset
                (set_usb (after_write c p o (usb kb)) kb) eq_refl)
      as [n Hn].
    exists n. intros budget Hb. rewrite send_command_valid by done.
    by apply Hn.
  - intros budget out kb' Hrun. rewrite send_command_valid in Hrun by done.
    by eapply receive_outcome.
Qed.

Lemma send_command_ends_iff_device_settles_witness :
  send_command silent_device 1 1 [] 0 blank_keyboard
  = (Raise USBTimeoutError,
     set_usb (after_write 1 [] 0 [] ++ [Read Timeout]) blank_keyboard)
  ∧ ∃ budget : nat,
      (send_command silent_device budget 1 [] 0 blank_keyboard).1 ≠ Unfinished.
Proof.
  destruct (send_command_ends_iff_device_settles silent_device 1 [] 0
              blank_keyboard) as (Hone & Hiff & _).
  - lia.
  - cbn [length]. lia.
  - split.
    + apply (Hone eq_refl 0%nat).
    + apply Hiff. apply settles_timeout. reflexivity.
Defined.

(** C9 as written fails: against a device that keeps sending packets which do
    not echo the request, no number of rounds ends the receive loop. *)
Lemma chatty_device_never_ends :
  ¬ ∃ budget : nat,
      (send_command chatty_device budget 1 [] 0 blank_keyboard).1 ≠ Unfinished.
Proof.
  intros [budget Hfin].
  rewrite send_command_valid in Hfin by (cbn [length]; lia).
  apply receive_finishes_settles in Hfin.
  by apply chatty_never_settles in Hfin.
Qed.

(** ** Calls against a responsive device *)

Lemma set_usb_set_usb (t t' : list event) (kb : Keyboard) :
  set_usb t' (set_usb t kb) = set_usb t' kb.
Proof. done. Qed.

Section Responsive.

Variable device : list event → read_result.

Lemma receive_answers (buffer : list Z) (t : list event) :
  answers device buffer t →
  ∀ kb : Keyboard, usb kb = t →
    ∃ (n : nat) (skipped : list (list Z)) (bs : list Z),
      Forall (fun s => take 3 s ≠ take 3 buffer) skipped
      ∧ take 3 bs = take 3 buffer
      ∧ ∀ budget : nat, (n ≤ budget)%nat →
          receive device budget buffer kb
          = (Ok (drop 4 bs),
             set_usb (usb kb ++ ((fun s => Read (Packet s)) <$> skipped)
                             ++ [Read (Packet bs)]) kb).
Proof.
  induction 1 as [t bs Hdev Hhdr | t bs Hdev Hhdr _ IH];
    intros kb Hkb; subst t.
  - exists 1%nat, [], bs. split_and!; [done | done |].
    intros [|b] Hb; [lia|].
    rewrite receive_step, Hdev, decide_True by done. done.
  - destruct (IH (set_usb (usb kb ++ [Read (Packet bs)]) kb) eq_refl)
      as (n & skipped & bs' & Hskip & Hbs' & Hrun).
    exists (S n), (bs :: skipped), bs'.
    split_and!; [by constructor | done |].
    intros [|b] Hb; [lia|].
    rewrite receive_step, Hdev, decide_False by done.
    rewrite Hrun by lia. cbn [usb set_usb fmap list_fmap].
    rewrite set_usb_set_usb, <- app_assoc. done.
Qed.

Hypothesis device_responsive : responsive device.

Lemma send_command_answered (k : call) (kb : Keyboard) :
  valid_call k →
  ∃ (n : nat) (x : exchange),
    x_call x = k ∧ exchange_ok x
    ∧ ∀ budget : nat, (n ≤ budget)%nat →
        send_command device budget k.1.1 k.1.2 k.2 kb
        = (Ok (payload x), set_usb (usb kb ++ exchange_events x) kb).
Proof.
  destruct k as [[c p] o]. intros [Hc Hp]. cbn [fst snd].
  pose proof (device_responsive
                (usb kb ++ if decide (c = 2) then [Slept] else [])
                (request_frame c p o) (request_frame_length c p o Hp))
    as Hans.
  destruct (receive_answers _ _ Hans
              (set_usb (after_write c p o (usb kb)) kb) eq_refl)
    as (n & skipped & bs & Hskip & Hbs & Hrun).
  exists n, (mkExchange (c, p, o) skipped bs).
  split_and!; [done | done |].
  intros budget Hb. rewrite send_command_valid by done.
  rewrite (Hrun budget Hb). unfold exchange_events, after_write.
  cbn [usb set_usb x_call x_skipped x_reply frame_of fst snd].
  rewrite set_usb_set_usb, <- !app_assoc. done.
Qed.

Lemma transact_answered (calls : list call) :
  Forall valid_call calls →
  ∀ kb : Keyboard,
    ∃ (n : nat) (xs : list exchange),
      x_call <$> xs = calls ∧ Forall exchange_ok xs
      ∧ ∀ budget : nat, (n ≤ budget)%nat →
          transact device budget calls kb
          = (Ok (payload <$> xs),
             set_usb (usb kb ++ (xs ≫= exchange_events)) kb).
Proof.
  induction 1 as [|k rest Hk _ IH]; intros kb.
  - exists 0%nat, []. split_and!; [done | done |].
    intros budget _. cbn. rewrite app_nil_r. by destruct kb.
  - destruct (send_command_answered k kb Hk) as (n1 & x & Hx & Hok & Hrun1).
    destruct (IH (set_usb (usb kb ++ exchange_events x) kb))
      as (n2 & xs & Hxs & Hoks & Hrun2).
    exists (n1 `max` n2)%nat, (x :: xs).
    split_and!; [by rewrite fmap_cons, Hx, Hxs | by constructor |].
    intros budget Hb. destruct k as [[c p] o]. cbn [transact].
    erewrite bind_run by (apply Hrun1; lia).
    erewrite bind_run by (apply Hrun2; lia).
    cbn [usb set_usb mbind list_bind fmap list_fmap].
    rewrite set_usb_set_usb, <- app_assoc. done.
Qed.

End Responsive.

(** ** What a sequence of exchanges leaves on the port *)

Lemma writes_app (t t' : list event) : writes (t ++ t') = writes t ++ writes t'.
Proof. apply omap_app. Qed.

Lemma writes_reads (l : list (list Z)) :
  writes ((fun bs => Read (Packet bs)) <$> l) = [].
Proof. by induction l. Qed.

Lemma writes_exchange (x : exchange) :
  writes (exchange_events x) = [frame_of (x_call x)].
Proof.
  unfold exchange_events. rewrite !writes_app, writes_reads.
  by case_decide.
Qed.

Lemma writes_exchanges (xs : list exchange) :
  writes (xs ≫= exchange_events) = frame_of <$> (x_call <$> xs).
Proof.
  induction xs as [|x xs IH]; [done|].
  cbn [mbind list_bind fmap list_fmap].
  rewrite writes_app, writes_exchange, IH. done.
Qed.

(** ** Loading and committing the configuration *)

Section Configuration.

Variable device : list event → read_result.
Variable budget : nat.

Lemma send_command_keeps_blob (c : Z) (p : list Z) (o : Z) (kb : Keyboard) :
  let kb' := (send_command device budget c p o kb).2 in
  config kb' = config kb
  ∧ config_needs_update kb' = config_needs_update kb.
Proof.
  unfold send_command.
  case_decide; [done|]. case_decide; [done|].
  unfold mbind, M_bind, USBDevice_write, log.
  destruct (receive_frame device budget (request_frame c p o)
              (set_usb ((usb kb ++ if decide (c = 2) then [Slept] else [])
                        ++ [Wrote (if decide
                              (length (request_frame c p o) < 64)%nat
                            then request_frame c p o
                                 ++ replicate
                                      (64 - length (request_frame c p o)) 0
                            else request_frame c p o)]) kb))
    as (_ & Hc & Hd).
  cbv zeta in *. case_decide; cbn in *; rewrite ?app_nil_r in *; done.
Qed.

Local Opaque send_command.

Lemma load_config_transact (kb : Keyboard) :
  load_config device budget kb
  = (rs ← transact device budget load_calls;
     _ ← put_config_needs_update false;
     put_config (mjoin (drop 12 rs))) kb.
Proof.
  unfold load_config, load_calls, range.
  cbn [seq fmap list_fmap app for_each transact replicate].
  cbv [Z.of_nat Pos.of_succ_nat Pos.succ Z.mul Pos.mul Pos.add].
  unfold mbind, M_bind, mret, M_ret, put_config, put_config_needs_update.
  repeat match goal with
  | |- context [send_command ?d ?b ?c ?p ?o ?k] =>
      destruct (send_command d b c p o k) as [[?|?|] ?];
      try reflexivity
  end.
  cbn [drop mjoin list_join]. by rewrite <- !app_assoc, ?app_nil_r.
Qed.

Lemma update_config_clean (kb : Keyboard) :
  config_needs_update kb = false → update_config device budget kb = (Ok tt, kb).
Proof.
  intros Hclean. unfold update_config, mbind, M_bind, get_config_needs_update.
  by rewrite Hclean.
Qed.

Lemma update_config_transact (kb : Keyboard) :
  config_needs_update kb = true →
  update_config device budget kb
  = (_ ← transact device budget (commit_calls (config kb));
     put_config_needs_update false) kb.
Proof.
  intros Hdirty. unfold update_config, commit_calls.
  unfold mbind at 1, M_bind at 1, get_config_needs_update.
  rewrite Hdirty. cbn [negb transact].
  unfold mbind, M_bind, get_config.
  pose proof (send_command_keeps_blob 1 [] 0 kb) as [Hc _].
  cbv zeta in Hc.
  destruct (send_command device budget 1 [] 0 kb) as [[r|e|] kb1];
    [|done..].
  cbn [snd] in Hc. rewrite Hc.
  destruct (send_command device budget 6 (config kb) 0 kb1)
    as [[r'|e|] kb2]; [|done..].
  destruct (send_command device budget 2 [] 0 kb2) as [[r''|e|] kb3]; done.
Qed.

End Configuration.

Lemma load_calls_listed :
  load_calls
  = [(1, [], 0);
     (3, [0; 0; 0; 0], 0); (3, [0; 0; 0; 0], 4); (3, [0; 0; 0; 0], 8);
     (3, [0; 0; 0; 0], 12); (3, [0; 0; 0; 0], 16); (3, [0; 0; 0; 0], 20);
     (3, [0; 0; 0; 0], 24); (3, [0; 0; 0; 0], 28); (3, [0; 0; 0; 0], 32);
     (3, [0], 36);
     (2, [], 0);
     (5, [0; 0; 0; 0], 0); (5, [0; 0; 0; 0], 4); (5, [0; 0; 0; 0], 8);
     (5, [0; 0; 0; 0], 12); (5, [0; 0; 0; 0], 16); (5, [0; 0; 0; 0], 20);
     (5, [0; 0; 0; 0], 24); (5, [0; 0; 0; 0], 28); (5, [0; 0; 0; 0], 32);
     (5, [0; 0; 0; 0], 36); (5, [0; 0; 0; 0], 40); (5, [0; 0; 0; 0], 44)].
Proof. reflexivity. Qed.

Lemma load_calls_valid : Forall valid_call load_calls.
Proof.
  rewrite load_calls_listed.
  repeat (constructor; [cbn; lia|]). constructor.
Qed.

Lemma payloads_length (xs : list exchange) :
  Forall (fun x => length (x_reply x) = 8%nat) xs →
  length (mjoin (payload <$> xs)) = (4 * length xs)%nat.
Proof.
  induction 1 as [|x xs Hx _ IH]; [done|].
  change (length (payload x ++ mjoin (payload <$> xs))
          = (4 * S (length xs))%nat).
  rewrite length_app, IH. unfold payload. rewrite length_drop, Hx. lia.
Qed.

Lemma demo_responsive : responsive demo_device.
Proof.
  intros t f Hf.
  assert (Hhdr : length (take 3 f) = 3%nat) by (rewrite length_take; lia).
  eapply (answers_later _ _ _ [0xee]).
  - unfold demo_device. by rewrite last_snoc.
  - intros Heq. apply (f_equal length) in Heq. rewrite Hhdr in Heq.
    discriminate Heq.
  - eapply answers_now.
    + unfold demo_device. rewrite last_snoc.
      rewrite writes_read, writes_wrote, last_snoc. reflexivity.
    + unfold answer_to. by rewrite take_app_length'.
Qed.

(** C4: against a device that answers, [load_config] makes exactly the calls
    of [load_calls], in that order: command 1; nine times command 3 with four
    zero bytes at offsets 0, 4, ..., 32; command 3 with one zero byte at
    offset 36; command 2; twelve times command 5 with four zero bytes at
    offsets 0, 4, ..., 44.  The blob becomes the concatenation of the twelve
    payloads returned for command 5, 48 bytes when each reply has eight, and
    the dirty flag ends cleared. *)
Theorem load_config_protocol (device : list event → read_result)
    (kb : Keyboard) :
  responsive device →
  ∃ (n : nat) (xs : list exchange),
    x_call <$> xs = load_calls
    ∧ Forall exchange_ok xs
    ∧ ∀ budget : nat, (n ≤ budget)%nat →
        let kb' :=
          mkKeyboard (usb kb ++ (xs ≫= exchange_events))
            (mjoin (payload <$> drop 12 xs)) false in
        load_config device budget kb = (Ok tt, kb')
        ∧ writes (usb kb') = writes (usb kb) ++ (frame_of <$> load_calls)
        ∧ (Forall (fun x => length (x_reply x) = 8%nat) (drop 12 xs) →
           length (config kb') = 48%nat).
Proof.
  intros Hdev.
  destruct (transact_answered device Hdev load_calls load_calls_valid kb)
    as (n & xs & Hxs & Hok & Hrun).
  exists n, xs. split_and!; [done | done |].
  intros budget Hb. cbv zeta. cbn [usb config]. split_and!.
  - rewrite load_config_transact.
    erewrite bind_run by (by apply Hrun).
    by rewrite fmap_drop.
  - by rewrite writes_app, writes_exchanges, Hxs.
  - intros Hlen. rewrite payloads_length by done.
    rewrite length_drop.
    replace (length xs) with (length load_calls)
      by (by rewrite <- Hxs, length_fmap).
    reflexivity.
Qed.

Lemma load_config_protocol_witness :
  ∃ (n : nat) (xs : list exchange),
    x_call <$> xs = load_calls
    ∧ Forall exchange_ok xs
    ∧ ∀ budget : nat, (n ≤ budget)%nat →
        let kb' :=
          mkKeyboard (usb blank_keyboard ++ (xs ≫= exchange_events))
            (mjoin (payload <$> drop 12 xs)) false in
        load_config demo_device budget blank_keyboard = (Ok tt, kb')
        ∧ writes (usb kb')
          = writes (usb blank_keyboard) ++ (frame_of <$> load_calls)
        ∧ (Forall (fun x => length (x_reply x) = 8%nat) (drop 12 xs) →
           length (config kb') = 48%nat).
Proof.
  apply (load_config_protocol demo_device blank_keyboard).
  exact demo_responsive.
Defined.

(** C5: [update_config] does nothing when the dirty flag is clear: no call, no
    change.  When it is set, and the blob fits one payload, it makes exactly
    command 1, command 6 with the whole blob, command 2, and clears the flag;
    so a second [update_config] right after it makes no call. *)
Theorem update_config_commits_once (device : list event → read_result)
    (kb : Keyboard) :
  responsive device →
  (config_needs_update kb = false →
   ∀ budget : nat, update_config device budget kb = (Ok tt, kb))
  ∧ (config_needs_update kb = true → (length (config kb) ≤ 56)%nat →
     ∃ (n : nat) (xs : list exchange),
       x_call <$> xs = commit_calls (config kb)
       ∧ Forall exchange_ok xs
       ∧ ∀ budget : nat, (n ≤ budget)%nat →
           let kb' :=
             mkKeyboard (usb kb ++ (xs ≫= exchange_events)) (config kb)
               false in
           update_config device budget kb = (Ok tt, kb')
           ∧ writes (usb kb')
             = writes (usb kb)
               ++ [request_frame 1 [] 0; request_frame 6 (config kb) 0;
                   request_frame 2 [] 0]
           ∧ update_config device budget kb' = (Ok tt, kb')).
Proof.
  intros Hdev. split.
  - intros Hclean budget. by apply update_config_clean.
  - intros Hdirty Hlen.
    assert (Hvalid : Forall valid_call (commit_calls (config kb))).
    { unfold commit_calls. repeat (constructor; [cbn; lia|]). constructor. }
    destruct (transact_answered device Hdev _ Hvalid kb)
      as (n & xs & Hxs & Hok & Hrun).
    exists n, xs. split_and!; [done | done |].
    intros budget Hb. cbv zeta. cbn [usb]. split_and!.
    + rewrite update_config_transact by done.
      erewrite bind_run by (by apply Hrun). done.
    + by rewrite writes_app, writes_exchanges, Hxs.
    + by apply update_config_clean.
Qed.

Lemma update_config_commits_once_witness :
  ∃ (n : nat) (xs : list exchange),
    x_call <$> xs = commit_calls (replicate 48 0)
    ∧ Forall exchange_ok xs
    ∧ ∀ budget : nat, (n ≤ budget)%nat →
        let kb' :=
          mkKeyboard ([] ++ (xs ≫= exchange_events)) (replicate 48 0) false in
        update_config demo_device budget (mkKeyboard [] (replicate 48 0) true)
        = (Ok tt, kb')
        ∧ writes (usb kb')
          = writes []
            ++ [request_frame 1 [] 0; request_frame 6 (replicate 48 0) 0;
                request_frame 2 [] 0]
        ∧ update_config demo_device budget kb' = (Ok tt, kb').
Proof.
  destruct (update_config_commits_once demo_device
              (mkKeyboard [] (replicate 48 0) true) demo_responsive)
    as [_ Hdirty].
  apply Hdirty.
  - reflexivity.
  - cbn. lia.
Defined.

(** ** The upload *)

Lemma chunk_count_none : chunk_count 0 = 0%nat.
Proof. reflexivity. Qed.

Lemma chunk_count_last (d : nat) : (0 < d < 56)%nat → chunk_count d = 1%nat.
Proof.
  unfold chunk_count. intros Hd.
  replace (d + 55)%nat with (d - 1 + 1 * 56)%nat by lia.
  rewrite Nat.div_add by lia. rewrite Nat.div_small by lia. done.
Qed.

Lemma chunk_count_more (d : nat) :
  (56 ≤ d)%nat → chunk_count d = S (chunk_count (d - 56)).
Proof.
  unfold chunk_count. intros Hd.
  replace (d + 55)%nat with (d - 56 + 55 + 1 * 56)%nat by lia.
  rewrite Nat.div_add by lia. lia.
Qed.

Lemma take_min_length {A} (l : list A) (n : nat) :
  take (n `min` length l) l = take n l.
Proof.
  destruct (decide (n ≤ length l)%nat) as [Hn | Hn].
  - by rewrite Nat.min_l.
  - rewrite Nat.min_r by lia. rewrite !take_ge by lia. done.
Qed.

Lemma full_frame_fits (frame : list pixel) :
  full_frame frame → (2 * length frame ≤ Z.to_nat frame_size)%nat.
Proof.
  unfold full_frame, DISPLAY_WIDTH, DISPLAY_HEIGHT. intros Hlen.
  pose proof frame_size_nat. lia.
Qed.

Lemma encoding_length (frame : list pixel) :
  full_frame frame → Z.of_nat (length (encoding frame)) = 65536.
Proof.
  intros Hfull. pose proof (full_frame_fits frame Hfull) as Hfit.
  pose proof frame_size_nat as HN. unfold encoding.
  rewrite length_app, length_replicate, wire_stream_length. lia.
Qed.

Lemma encodings_length (frames : list (list pixel)) :
  Forall full_frame frames →
  Z.of_nat (length (mjoin (encoding <$> frames)))
  = Z.of_nat (length frames) * 65536.
Proof.
  induction 1 as [|frame frames Hfull _ IH]; [done|].
  change (Z.of_nat (length (encoding frame ++ mjoin (encoding <$> frames)))
          = Z.of_nat (S (length frames)) * 65536).
  rewrite length_app, Nat2Z.inj_add, IH, encoding_length by done. lia.
Qed.

Lemma encode_animation_from (rest : list (list pixel)) :
  ∀ (pre : list (list pixel)) (data : list Z) (kb : Keyboard),
    Forall full_frame rest →
    for_each (seq (length pre) (length rest))
      (fun (i : nat) (data : list Z) =>
         frame ← lift (get_frame (pre ++ rest) i);
         encoded ← lift (encode_frame frame);
         mret (data ++ encoded)) data kb
    = (Ok (data ++ mjoin (encoding <$> rest)), kb).
Proof.
  induction rest as [|frame rest IH]; intros pre data kb Hfull.
  - cbn. by rewrite app_nil_r.
  - apply Forall_cons in Hfull as [Hframe Hrest].
    cbn [length seq for_each].
    assert (Hget : get_frame (pre ++ frame :: rest) (length pre) = Ok frame).
    { unfold get_frame, Animation. by rewrite list_lookup_middle. }
    erewrite bind_run; cycle 1.
    { rewrite Hget. erewrite bind_run by (by apply lift_ok).
      erewrite bind_run
        by (apply lift_ok, encode_frame_ok, full_frame_fits; done).
      reflexivity. }
    fold (encoding frame).
    specialize (IH (pre ++ [frame]) (data ++ encoding frame) kb Hrest).
    rewrite length_app, <- app_assoc in IH. cbn [length app] in IH.
    rewrite Nat.add_1_r in IH. rewrite IH.
    change (mjoin (encoding <$> frame :: rest))
      with (encoding frame ++ mjoin (encoding <$> rest)).
    by rewrite app_assoc.
Qed.

Lemma encode_animation_ok (a : Animation) (data : list Z) (kb : Keyboard) :
  Forall full_frame a →
  encode_animation a data kb = (Ok (data ++ mjoin (encoding <$> a)), kb).
Proof.
  intros Hfull. unfold encode_animation, range, num_frames.
  by apply (encode_animation_from a []).
Qed.

Lemma chunk_length (data : list Z) (k : nat) :
  length (chunk data k) = (56 `min` (length data - 56 * k))%nat.
Proof. unfold chunk. by rewrite length_take, length_drop. Qed.

Lemma chunk_count_div_mod (total : nat) :
  chunk_count total
  = if decide (total mod 56 = 0)%nat then (total / 56)%nat
    else S (total / 56).
Proof.
  unfold chunk_count.
  pose proof (Nat.div_mod_eq total 56) as Hdm.
  pose proof (Nat.mod_upper_bound total 56 ltac:(lia)) as Hr.
  case_decide as H0.
  - replace (total + 55)%nat with (55 + total / 56 * 56)%nat by lia.
    rewrite Nat.div_add by lia. by rewrite (Nat.div_small 55 56) by lia.
  - replace (total + 55)%nat
      with (total mod 56 - 1 + S (total / 56) * 56)%nat by lia.
    rewrite Nat.div_add by lia. by rewrite Nat.div_small by lia.
Qed.

Lemma chunk_count_covers (total : nat) : (total ≤ 56 * chunk_count total)%nat.
Proof.
  rewrite chunk_count_div_mod.
  pose proof (Nat.div_mod_eq total 56) as Hdm.
  pose proof (Nat.mod_upper_bound total 56 ltac:(lia)) as Hr.
  case_decide; lia.
Qed.

Lemma chunk_full (data : list Z) (k : nat) :
  (S k < chunk_count (length data))%nat → length (chunk data k) = 56%nat.
Proof.
  rewrite chunk_length, chunk_count_div_mod.
  pose proof (Nat.div_mod_eq (length data) 56) as Hdm.
  pose proof (Nat.mod_upper_bound (length data) 56 ltac:(lia)) as Hr.
  case_decide; lia.
Qed.

Lemma chunk_final (data : list Z) :
  (0 < length data)%nat →
  length (chunk data (chunk_count (length data) - 1))
  = if decide (length data mod 56 = 0)%nat then 56%nat
    else (length data mod 56)%nat.
Proof.
  rewrite chunk_length, chunk_count_div_mod.
  pose proof (Nat.div_mod_eq (length data) 56) as Hdm.
  pose proof (Nat.mod_upper_bound (length data) 56 ltac:(lia)) as Hr.
  case_decide; lia.
Qed.

Lemma chunks_join (data : list Z) (m : nat) :
  ∀ k0 : nat,
    (length data - 56 * k0 ≤ 56 * m)%nat →
    mjoin (chunk data <$> seq k0 m) = drop (56 * k0) data.
Proof.
  induction m as [|m IH]; intros k0 Hlen.
  - cbn. rewrite drop_ge by lia. done.
  - change (chunk data k0 ++ mjoin (chunk data <$> seq (S k0) m)
            = drop (56 * k0) data).
    rewrite IH by lia. unfold chunk.
    replace (56 * S k0)%nat with (56 * k0 + 56)%nat by lia.
    rewrite <- drop_drop. apply take_drop.
Qed.

Section Upload.

Variable device : list event → read_result.
Variable budget : nat.

Lemma transact_app (calls1 calls2 : list call) :
  ∀ kb : Keyboard,
    transact device budget (calls1 ++ calls2) kb
    = (r1 ← transact device budget calls1;
       r2 ← transact device budget calls2;
       mret (r1 ++ r2)) kb.
Proof.
  induction calls1 as [|[[c p] o] calls1 IH]; intros kb.
  - cbn [app transact]. unfold mbind, M_bind, mret, M_ret.
    by destruct (transact device budget calls2 kb) as [[?|?|] ?].
  - cbn [app transact]. unfold mbind, M_bind, mret, M_ret.
    destruct (send_command device budget c p o kb) as [[r|e|] kb1];
      [|done..].
    rewrite IH. unfold mbind, M_bind, mret, M_ret.
    destruct (transact device budget calls1 kb1) as [[r1|e|] kb2];
      [|done..].
    by destruct (transact device budget calls2 kb2) as [[?|?|] ?].
Qed.

Lemma upload_chunks_done (n : nat) (data : list Z) (pos total : nat)
    (kb : Keyboard) :
  (total ≤ pos)%nat →
  upload_chunks device budget n data pos total kb = (Ok tt, kb).
Proof.
  intros Hpos. destruct n; cbn [upload_chunks];
    by rewrite decide_False by lia.
Qed.

Lemma upload_chunks_transact (data : list Z) (n : nat) :
  ∀ (k0 : nat) (kb : Keyboard),
    (length data - 56 * k0 ≤ n)%nat →
    upload_chunks device budget n data (56 * k0) (length data) kb
    = void (transact device budget
              (chunk_call data <$>
                 seq k0 (chunk_count (length data - 56 * k0)))) kb.
Proof.
  induction n as [|n IH]; intros k0 kb Hn.
  - rewrite upload_chunks_done by lia.
    replace (length data - 56 * k0)%nat with 0%nat by lia. done.
  - destruct (decide (56 * k0 < length data)%nat) as [Hpos | Hpos]; cycle 1.
    { rewrite upload_chunks_done by lia.
      replace (length data - 56 * k0)%nat with 0%nat by lia. done. }
    cbn [upload_chunks]. rewrite decide_True by done.
    replace (56 `min` (length data - 56 * k0))%nat
      with (56 `min` length (drop (56 * k0) data))%nat
      by (by rewrite length_drop).
    rewrite take_min_length. fold (chunk data k0).
    destruct (decide (length data - 56 * k0 < 56)%nat) as [Hlast | Hmore].
    + rewrite chunk_count_last by lia.
      cbn [seq fmap list_fmap transact chunk_call].
      unfold void, mbind, M_bind, mret, M_ret.
      destruct (send_command device budget 33 (chunk data k0)
                  (Z.of_nat (56 * k0)) kb) as [[r|e|] kb1]; [|done..].
      rewrite upload_chunks_done; [done|]. rewrite length_drop. lia.
    + rewrite chunk_count_more by lia.
      cbn [seq fmap list_fmap transact chunk_call].
      unfold void, mbind, M_bind, mret, M_ret.
      destruct (send_command device budget 33 (chunk data k0)
                  (Z.of_nat (56 * k0)) kb) as [[r|e|] kb1]; [|done..].
      rewrite length_drop.
      replace (56 * k0 + 56 `min` (length data - 56 * k0))%nat
        with (56 * S k0)%nat by lia.
      rewrite IH by lia. unfold void, mbind, M_bind, mret, M_ret.
      replace (length data - 56 * k0 - 56)%nat
        with (length data - 56 * S k0)%nat by lia.
      by destruct (transact device budget _ kb1) as [[?|?|] ?].
Qed.

Lemma upload_frames_transact (first second : Animation) (kb : Keyboard) :
  Forall full_frame first → Forall full_frame second →
  upload_frames device budget first second kb
  = void (transact device budget
            (upload_calls (mjoin (encoding <$> first ++ second)))) kb.
Proof.
  intros Hfirst Hsecond. unfold upload_frames.
  erewrite bind_run by (by apply encode_animation_ok).
  erewrite bind_run by (by apply encode_animation_ok).
  rewrite app_nil_l, <- join_app, <- fmap_app.
  set (data := mjoin (encoding <$> first ++ second)).
  cbv zeta. unfold upload_calls. cbn [app transact].
  unfold void, mbind, M_bind, mret, M_ret.
  destruct (send_command device budget 35 [] 0 kb) as [[r1|e|] kb1];
    [|done..].
  destruct (send_command device budget 1 [] 0 kb1) as [[r2|e|] kb2];
    [|done..].
  pose proof (upload_chunks_transact data (length data) 0 kb2) as Hloop.
  rewrite Nat.mul_0_r, Nat.sub_0_r in Hloop. rewrite Hloop by lia.
  rewrite transact_app. unfold void, mbind, M_bind, mret, M_ret.
  destruct (transact device budget _ kb2) as [[rs|e|] kb3]; [|done..].
  cbn [transact]. unfold mbind, M_bind, mret, M_ret.
  by destruct (send_command device budget 2 [] 0 kb3) as [[?|?|] ?].
Qed.

End Upload.

Lemma upload_calls_valid (data : list Z) : Forall valid_call (upload_calls data).
Proof.
  unfold upload_calls. repeat (constructor; [cbn; lia|]).
  apply Forall_app. split.
  - apply Forall_fmap, Forall_forall. intros k _. split; [lia|].
    rewrite chunk_length. lia.
  - repeat (constructor; [cbn; lia|]). constructor.
Qed.

Lemma encodings_correct (frames : list (list pixel)) :
  Forall full_frame frames →
  Forall2 (fun frame e => encode_frame frame = Ok e) frames (encoding <$> frames).
Proof.
  intros Hfull. apply Forall2_fmap_r, Forall_Forall2_diag.
  eapply Forall_impl; [exact Hfull|].
  intros frame Hframe. by apply encode_frame_ok, full_frame_fits.
Qed.

(** C3: against a device that answers, [upload_frames] encodes the frames of
    the first animation and then those of the second into one stream of
    65536 bytes per frame, and makes exactly the calls of [upload_calls]:
    command 0x23, command 1, one command 0x21 per chunk with the chunk as
    payload and the chunk's position in the whole stream as offset, command
    2.  There are [ceil(len/56)] chunks; they join to the stream; every chunk
    but the last has 56 bytes and the last has [len mod 56], or 56 when that
    is zero. *)
Theorem upload_frames_protocol (device : list event → read_result)
    (first second : Animation) (kb : Keyboard) :
  responsive device → Forall full_frame first → Forall full_frame second →
  ∃ (data : list Z) (n : nat) (xs : list exchange),
    data = mjoin (encoding <$> first) ++ mjoin (encoding <$> second)
    ∧ Forall2 (fun frame e => encode_frame frame = Ok e)
        (first ++ second) (encoding <$> first ++ second)
    ∧ Z.of_nat (length data)
      = (Z.of_nat (num_frames first) + Z.of_nat (num_frames second)) * 65536
    ∧ mjoin (chunk data <$> seq 0 (chunk_count (length data))) = data
    ∧ (∀ k : nat, (S k < chunk_count (length data))%nat →
         length (chunk data k) = 56%nat)
    ∧ ((0 < length data)%nat →
       length (chunk data (chunk_count (length data) - 1))
       = if decide (length data mod 56 = 0)%nat then 56%nat
         else (length data mod 56)%nat)
    ∧ x_call <$> xs = upload_calls data
    ∧ Forall exchange_ok xs
    ∧ ∀ budget : nat, (n ≤ budget)%nat →
        let kb' := set_usb (usb kb ++ (xs ≫= exchange_events)) kb in
        upload_frames device budget first second kb = (Ok tt, kb')
        ∧ writes (usb kb')
          = writes (usb kb) ++ (frame_of <$> upload_calls data).
Proof.
  intros Hdev Hfirst Hsecond.
  assert (Hall : Forall full_frame (first ++ second))
    by (by apply Forall_app).
  set (data := mjoin (encoding <$> first) ++ mjoin (encoding <$> second)).
  assert (Hdata : mjoin (encoding <$> first ++ second) = data)
    by (by rewrite fmap_app, join_app).
  destruct (transact_answered device Hdev (upload_calls data)
              (upload_calls_valid data) kb)
    as (n & xs & Hxs & Hok & Hrun).
  exists data, n, xs. split_and!; [done | | | | | | done | done |].
  - by apply encodings_correct.
  - rewrite <- Hdata, encodings_length by done.
    unfold num_frames. rewrite length_app. lia.
  - rewrite chunks_join; [apply drop_0|].
    pose proof (chunk_count_covers (length data)). lia.
  - intros k Hk. by apply chunk_full.
  - apply chunk_final.
  - intros budget Hb. cbv zeta. cbn [usb set_usb]. split.
    + rewrite upload_frames_transact, Hdata by done.
      unfold void. erewrite bind_run by (by apply Hrun). done.
    + by rewrite writes_app, writes_exchanges, Hxs.
Qed.

Lemma upload_frames_protocol_witness :
  ∃ (data : list Z) (n : nat) (xs : list exchange),
    data = mjoin (encoding <$> white_animation)
           ++ mjoin (encoding <$> black_animation)
    ∧ Forall2 (fun frame e => encode_frame frame = Ok e)
        (white_animation ++ black_animation)
        (encoding <$> white_animation ++ black_animation)
    ∧ Z.of_nat (length data)
      = (Z.of_nat (num_frames white_animation)
         + Z.of_nat (num_frames black_animation)) * 65536
    ∧ mjoin (chunk data <$> seq 0 (chunk_count (length data))) = data
    ∧ (∀ k : nat, (S k < chunk_count (length data))%nat →
         length (chunk data k) = 56%nat)
    ∧ ((0 < length data)%nat →
       length (chunk data (chunk_count (length data) - 1))
       = if decide (length data mod 56 = 0)%nat then 56%nat
         else (length data mod 56)%nat)
    ∧ x_call <$> xs = upload_calls data
    ∧ Forall exchange_ok xs
    ∧ ∀ budget : nat, (n ≤ budget)%nat →
        let kb' :=
          set_usb (usb blank_keyboard ++ (xs ≫= exchange_events))
            blank_keyboard in
        upload_frames demo_device budget white_animation black_animation
          blank_keyboard = (Ok tt, kb')
        ∧ writes (usb kb')
          = writes (usb blank_keyboard) ++ (frame_of <$> upload_calls data).
Proof.
  apply (upload_frames_protocol demo_device white_animation black_animation
           blank_keyboard).
  - exact demo_responsive.
  - constructor; [|constructor]. unfold full_frame.
    rewrite length_replicate. apply Z2Nat.id.
    unfold DISPLAY_WIDTH, DISPLAY_HEIGHT. lia.
  - constructor; [|constructor]. unfold full_frame.
    rewrite length_replicate. apply Z2Nat.id.
    unfold DISPLAY_WIDTH, DISPLAY_HEIGHT. lia.
Defined.

(** * Further properties *)

(** ** The request frame: checksum, decoding, byte range *)

Lemma sum_app (l k : list Z) :
  foldr Z.add 0 (l ++ k) = foldr Z.add 0 l + foldr Z.add 0 k.
Proof. induction l as [|x l IH]; cbn [foldr app]; lia. Qed.

Lemma sum_zeros (n : nat) : foldr Z.add 0 (replicate n 0) = 0.
Proof. induction n as [|n IH]; cbn [foldr replicate]; lia. Qed.

Lemma sum_insert (l : list Z) :
  ∀ (i : nat) (u v : Z),
    l !! i = Some u →
    foldr Z.add 0 (<[i:=v]> l) = foldr Z.add 0 l + v - u.
Proof.
  induction l as [|x l IH]; intros i u v Hi; [done|].
  destruct i as [|i].
  - injection Hi as ->. cbn. lia.
  - cbn in Hi. change (<[S i:=v]> (x :: l)) with (x :: <[i:=v]> l).
    cbn [foldr]. rewrite (IH i u v Hi). lia.
Qed.

Lemma sum_permutation (l k : list Z) :
  l ≡ₚ k → foldr Z.add 0 l = foldr Z.add 0 k.
Proof. induction 1; cbn [foldr]; lia. Qed.

Lemma request_frame_header_sum (c : Z) (p : list Z) (o : Z) :
  take 3 (request_frame c p o)
  = [0x04; Z.land (frame_sum c p o) 0xff;
     Z.land (Z.shiftr (frame_sum c p o) 8) 0xff].
Proof.
  rewrite request_frame_unfold. cbv zeta. cbn [take foldr].
  rewrite sum_app, sum_zeros.
  replace (c + (Z.of_nat (length p)
               + (Z.land o 255
                  + (Z.land (Z.shiftr o 8) 255
                     + (Z.land (Z.shiftr o 16) 255
                        + (foldr Z.add 0 p + 0))))))
    with (frame_sum c p o) by (unfold frame_sum; lia).
  done.
Qed.

Lemma header_determines_sum (c c' : Z) (p p' : list Z) (o o' : Z) :
  take 3 (request_frame c p o) = take 3 (request_frame c' p' o')
  ↔ frame_sum c p o mod 65536 = frame_sum c' p' o' mod 65536.
Proof.
  rewrite !request_frame_header_sum. split.
  - intros Heq. injection Heq as H1 H2.
    rewrite <- !le16. lia.
  - intros Heq. rewrite !land_255, !shiftr_8.
    revert Heq. generalize (frame_sum c p o), (frame_sum c' p' o').
    intros s s' Heq.
    assert (H1 : s mod 256 = s' mod 256)
      by (Z.div_mod_to_equations; lia).
    assert (H2 : (s / 256) mod 256 = (s' / 256) mod 256)
      by (Z.div_mod_to_equations; lia).
    by rewrite H1, H2.
Qed.

(** Overwriting one payload byte by a different byte changes the checksum, so
    the frame's header changes with it. *)
Theorem checksum_detects_changed_byte (c : Z) (p : list Z) (o : Z)
    (i : nat) (u v : Z) :
  p !! i = Some u → is_byte u → is_byte v → u ≠ v →
  take 3 (request_frame c (<[i:=v]> p) o) ≠ take 3 (request_frame c p o).
Proof.
  unfold is_byte. intros Hi Hu Hv Hne Heq.
  apply header_determines_sum in Heq. unfold frame_sum in Heq.
  rewrite length_insert, (sum_insert p i u v Hi) in Heq.
  revert Heq.
  generalize (Z.land o 255), (Z.land (Z.shiftr o 8) 255),
    (Z.land (Z.shiftr o 16) 255), (foldr Z.add 0 p), (Z.of_nat (length p)).
  intros o0 o1 o2 s n Heq. Z.div_mod_to_equations. lia.
Qed.

Lemma checksum_detects_changed_byte_witness :
  take 3 (request_frame 6 (<[1%nat:=9]> [1; 2; 3]) 0)
  ≠ take 3 (request_frame 6 [1; 2; 3] 0).
Proof.
  apply (checksum_detects_changed_byte 6 [1; 2; 3] 0 1 2 9).
  - reflexivity.
  - unfold is_byte. lia.
  - unfold is_byte. lia.
  - lia.
Defined.

Lemma receive_same_header (device : list event → read_result)
    (f f' : list Z) (n : nat) :
  take 3 f = take 3 f' →
  ∀ kb : Keyboard, receive device n f kb = receive device n f' kb.
Proof.
  intros Hhdr. induction n as [|n IH]; intros kb; [done|].
  rewrite !receive_step, Hhdr.
  destruct (device (usb kb)) as [|bs]; [done|].
  case_decide; [done | apply IH].
Qed.

(** The receive loop looks at the first three bytes only, and the checksum
    is a plain sum: for two requests that differ in the order of their
    payload bytes it accepts and discards exactly the same packets. *)
Theorem receive_blind_to_payload_order (device : list event → read_result)
    (n : nat) (c : Z) (p p' : list Z) (o : Z) (kb : Keyboard) :
  p ≡ₚ p' →
  take 3 (request_frame c p o) = take 3 (request_frame c p' o)
  ∧ receive device n (request_frame c p o) kb
    = receive device n (request_frame c p' o) kb.
Proof.
  intros Hperm.
  assert (Hhdr : take 3 (request_frame c p o) = take 3 (request_frame c p' o)).
  { apply header_determines_sum. unfold frame_sum.
    by rewrite (sum_permutation p p' Hperm), (Permutation_length Hperm). }
  split; [done | by apply receive_same_header].
Qed.

Lemma receive_blind_to_payload_order_witness :
  take 3 (request_frame 6 [1; 2] 0) = take 3 (request_frame 6 [2; 1] 0)
  ∧ receive demo_device 3 (request_frame 6 [1; 2] 0) blank_keyboard
    = receive demo_device 3 (request_frame 6 [2; 1] 0) blank_keyboard.
Proof.
  apply (receive_blind_to_payload_order demo_device 3 6 [1; 2] [2; 1] 0
           blank_keyboard).
  apply Permutation_swap.
Defined.

Lemma le24_any (o : Z) :
  Z.land o 0xff + 256 * Z.land (Z.shiftr o 8) 0xff
  + 65536 * Z.land (Z.shiftr o 16) 0xff = o mod 2 ^ 24.
Proof.
  rewrite !land_255, !Z.shiftr_div_pow2 by lia.
  change (2 ^ 8) with 256. change (2 ^ 16) with 65536.
  change (2 ^ 24) with 16777216.
  Z.div_mod_to_equations. lia.
Qed.

Lemma offset_bytes_mod (o : Z) :
  Z.land o 0xff = Z.land (o mod 2 ^ 24) 0xff
  ∧ Z.land (Z.shiftr o 8) 0xff = Z.land (Z.shiftr (o mod 2 ^ 24) 8) 0xff
  ∧ Z.land (Z.shiftr o 16) 0xff = Z.land (Z.shiftr (o mod 2 ^ 24) 16) 0xff.
Proof.
  rewrite !land_255, !Z.shiftr_div_pow2 by lia.
  change (2 ^ 8) with 256. change (2 ^ 16) with 65536.
  change (2 ^ 24) with 16777216.
  split_and!; Z.div_mod_to_equations; lia.
Qed.

(** A frame can be read back: two calls with payloads of at most 56 entries
    build the same frame exactly when they agree on the command id, on the
    payload and on the offset modulo 2^24.  So nothing of a call is lost but
    the offset bits from 24 up, which are dropped without an error. *)
Theorem request_frame_decodes (c c' : Z) (p p' : list Z) (o o' : Z) :
  (length p ≤ 56)%nat → (length p' ≤ 56)%nat →
  request_frame c p o = request_frame c' p' o'
  ↔ c = c' ∧ p = p' ∧ o mod 2 ^ 24 = o' mod 2 ^ 24.
Proof.
  intros Hp Hp'. split.
  - rewrite !request_frame_unfold. cbv zeta. intros Heq.
    injection Heq as _ _ Hc Hlen H0 H1 H2 Hpay.
    apply Nat2Z.inj in Hlen.
    apply app_inj_1 in Hpay as [Hpay _]; [|done].
    split_and!; [done | done |].
    rewrite <- !le24_any. lia.
  - intros (-> & -> & Ho).
    destruct (offset_bytes_mod o) as (H0 & H1 & H2).
    destruct (offset_bytes_mod o') as (H0' & H1' & H2').
    rewrite !request_frame_unfold. cbv zeta.
    rewrite H0, H1, H2, H0', H1', H2', Ho. done.
Qed.

Lemma request_frame_decodes_witness :
  request_frame 0x21 [7] 5 = request_frame 0x21 [7] (5 + 2 ^ 24)
  ↔ 0x21 = 0x21 ∧ [7] = [7] ∧ 5 mod 2 ^ 24 = (5 + 2 ^ 24) mod 2 ^ 24.
Proof.
  apply (request_frame_decodes 0x21 0x21 [7] [7] 5 (5 + 2 ^ 24)).
  - cbn [length]. lia.
  - cbn [length]. lia.
Defined.

(** A command id and a payload that fit a byte give a frame of bytes,
    whatever the offset. *)
Theorem request_frame_bytes (c : Z) (p : list Z) (o : Z) :
  is_byte c → Forall is_byte p → (length p ≤ 56)%nat →
  Forall is_byte (request_frame c p o).
Proof.
  unfold is_byte. intros Hc Hp Hlen. rewrite request_frame_unfold. cbv zeta.
  repeat (constructor; [first [apply land_255_byte | lia]|]).
  apply Forall_app. split; [done|].
  apply Forall_replicate. lia.
Qed.

Lemma request_frame_bytes_witness :
  Forall is_byte (request_frame 6 (replicate 48 0) (-1)).
Proof.
  apply (request_frame_bytes 6 (replicate 48 0) (-1)).
  - unfold is_byte. lia.
  - apply Forall_replicate. unfold is_byte. lia.
  - rewrite length_replicate. lia.
Defined.

(** ** The frame encoder: every input *)

Lemma array_setitem_outside (a : list Z) (i : nat) (v : Z) :
  (length a ≤ i)%nat → array_setitem a i v = Raise IndexError.
Proof.
  intros Hi. unfold array_setitem. by rewrite decide_False by lia.
Qed.

Lemma encode_pixels_overflow (frame : list pixel) :
  ∀ (idx : nat) (buf : list Z),
    (2 * idx ≤ length buf < 2 * (idx + length frame))%nat →
    encode_pixels frame idx buf = Raise IndexError.
Proof.
  induction frame as [|px rest IH]; intros idx buf Hlen.
  - cbn [length] in Hlen. lia.
  - cbn [length] in Hlen. cbn [encode_pixels].
    destruct (decide (idx * 2 < length buf)%nat) as [H0 | H0]; cycle 1.
    { rewrite array_setitem_outside by lia. done. }
    rewrite array_setitem_byte by done. cbn [mbind outcome_bind].
    destruct (decide (idx * 2 + 1 < length buf)%nat) as [H1 | H1]; cycle 1.
    { rewrite array_setitem_outside by (rewrite length_insert; lia). done. }
    rewrite array_setitem_byte by (by rewrite length_insert).
    cbn [mbind outcome_bind].
    apply IH. rewrite !length_insert. lia.
Qed.

(** [encode_frame] accepts every frame of at most 32768 pixels, whatever the
    channel values (they are masked, never rejected), and returns 65536
    bytes; a longer frame runs off the buffer and raises [IndexError]. *)
Theorem encode_frame_total (frame : list pixel) :
  (Z.of_nat (length frame) <= 32768 →
   encode_frame frame = Ok (encoding frame)
   ∧ Z.of_nat (length (encoding frame)) = 65536
   ∧ Forall is_byte (encoding frame))
  ∧ (32768 < Z.of_nat (length frame) →
     encode_frame frame = Raise IndexError).
Proof.
  pose proof frame_size_nat as HN. split.
  - intros Hlen. split_and!.
    + apply encode_frame_ok. lia.
    + unfold encoding.
      rewrite length_app, length_replicate, wire_stream_length. lia.
    + unfold encoding. apply Forall_app. split.
      * apply Forall_bind, Forall_forall. intros px _.
        unfold wire_bytes, is_byte.
        repeat (constructor; [apply land_255_byte|]). constructor.
      * apply Forall_replicate. unfold is_byte. lia.
  - intros Hlen. unfold encode_frame.
    apply encode_pixels_overflow. rewrite length_replicate. lia.
Qed.

Lemma encode_frame_total_witness :
  encode_frame [(-1, 256, 1000)] = Ok (encoding [(-1, 256, 1000)])
  ∧ encode_frame (replicate (Z.to_nat 32769) (0, 0, 0)) = Raise IndexError.
Proof.
  split.
  - apply (encode_frame_total [(-1, 256, 1000)]). cbn [length]. lia.
  - apply (encode_frame_total (replicate (Z.to_nat 32769) (0, 0, 0))).
    rewrite length_replicate. lia.
Defined.

(** The wire value keeps the top five, six and five bits of the channels:
    each field of it reads back the channel shifted down, so a decoder that
    shifts it up again is below the original by at most 7, 3 and 7; the two
    bytes stored are its high and low byte. *)
Theorem rgb565_reads_back (r g b : Z) :
  is_rgb (r, g, b) →
  let v := rgb565 (r, g, b) in
  Z.shiftr v 11 = Z.shiftr r 3
  ∧ Z.land (Z.shiftr v 5) 0x3F = Z.shiftr g 2
  ∧ Z.land v 0x1F = Z.shiftr b 3
  ∧ 0 <= r - Z.shiftl (Z.shiftr v 11) 3 <= 7
  ∧ 0 <= g - Z.shiftl (Z.land (Z.shiftr v 5) 0x3F) 2 <= 3
  ∧ 0 <= b - Z.shiftl (Z.land v 0x1F) 3 <= 7
  ∧ ∃ hi lo : Z, wire_bytes (r, g, b) = [hi; lo] ∧ 256 * hi + lo = v.
Proof.
  intros (Hr & Hg & Hb). cbv zeta.
  rewrite rgb565_arith.
  rewrite (Z.land_ones _ 5), (Z.land_ones _ 6) by lia.
  rewrite !Z.shiftr_div_pow2, !Z.shiftl_mul_pow2 by lia.
  change (2 ^ 3) with 8. change (2 ^ 2) with 4. change (2 ^ 5) with 32.
  change (2 ^ 6) with 64. change (2 ^ 11) with 2048.
  split_and!; try (Z.div_mod_to_equations; lia).
  unfold wire_bytes. eexists _, _. split; [reflexivity|].
  pose proof (rgb565_range (r, g, b)) as Hv.
  rewrite rgb565_arith in *. rewrite !land_255, shiftr_8.
  Z.div_mod_to_equations. lia.
Qed.

Lemma rgb565_reads_back_witness :
  Z.shiftr (rgb565 (200, 100, 50)) 11 = Z.shiftr 200 3
  ∧ 0 <= 200 - Z.shiftl (Z.shiftr (rgb565 (200, 100, 50)) 11) 3 <= 7.
Proof.
  destruct (rgb565_reads_back 200 100 50) as (H1 & _ & _ & H4 & _).
  - unfold is_rgb. lia.
  - split; [exact H1 | exact H4].
Defined.

(** ** The BCD encoder read back *)

(** What [_int_to_bcd] returns is a byte of two decimal nibbles that reads
    back to its argument; so different arguments encode differently. *)
Theorem int_to_bcd_reads_back (n b : Z) :
  _int_to_bcd n = Ok b →
  bcd_decode b = n
  ∧ 0 <= b / 16 <= 9 ∧ 0 <= b mod 16 <= 9 ∧ 0 <= b <= 0x99
  ∧ ∀ m : Z, _int_to_bcd m = Ok b → m = n.
Proof.
  assert (Hback : ∀ m c, _int_to_bcd m = Ok c →
            0 <= m <= 99 ∧ c = 16 * (m / 10) + m mod 10).
  { intros m c Hm. unfold _int_to_bcd in Hm.
    case_decide as Hr; [|done]. injection Hm as <-.
    by rewrite bcd_packed. }
  intros Hn. destruct (Hback n b Hn) as [Hr ->].
  unfold bcd_decode. split_and!; try (Z.div_mod_to_equations; lia).
  intros m Hm. destruct (Hback m _ Hm) as [Hrm Heq].
  Z.div_mod_to_equations. lia.
Qed.

Lemma int_to_bcd_reads_back_witness :
  bcd_decode 0x59 = 59 ∧ ∀ m : Z, _int_to_bcd m = Ok 0x59 → m = 59.
Proof.
  destruct (int_to_bcd_reads_back 59 0x59) as (H1 & _ & _ & _ & H5).
  - reflexivity.
  - split; [exact H1 | exact H5].
Defined.

(** ** [send_command] on every input *)

(** A command id outside 1..255 or a payload of more than 56 entries is
    refused with [ValueError] before anything happens on the port: no sleep,
    no write, no read; the object is as it was. *)
Theorem send_command_refuses (device : list event → read_result)
    (budget : nat) (c : Z) (p : list Z) (o : Z) (kb : Keyboard) :
  ¬ (0 < c <= 255) ∨ (56 < length p)%nat →
  send_command device budget c p o kb = (Raise ValueError, kb).
Proof.
  intros Hbad. unfold send_command.
  destruct (decide (¬ (0 < c <= 255))) as [Hc | Hc]; [done|].
  destruct Hbad as [Hbad | Hbad]; [done|].
  by rewrite decide_True.
Qed.

Lemma send_command_refuses_witness :
  send_command demo_device 5 0 [] 0 blank_keyboard
  = (Raise ValueError, blank_keyboard)
  ∧ send_command demo_device 5 256 [] 0 blank_keyboard
    = (Raise ValueError, blank_keyboard)
  ∧ send_command demo_device 5 6 (replicate 57 0) 0 blank_keyboard
    = (Raise ValueError, blank_keyboard).
Proof.
  split_and!.
  - apply (send_command_refuses demo_device 5 0 [] 0 blank_keyboard).
    left. lia.
  - apply (send_command_refuses demo_device 5 256 [] 0 blank_keyboard).
    left. lia.
  - apply (send_command_refuses demo_device 5 6 (replicate 57 0) 0
             blank_keyboard).
    right. rewrite length_replicate. lia.
Defined.

Lemma receive_reads (device : list event → read_result) (buffer : list Z)
    (n : nat) :
  ∀ (kb kb' : Keyboard) (out : outcome (list Z)),
    receive device n buffer kb = (out, kb') →
    ∃ rs : list read_result,
      usb kb' = usb kb ++ (Read <$> rs) ∧ (length rs ≤ n)%nat
      ∧ untouched kb kb'.
Proof.
  induction n as [|n IH]; intros kb kb' out Hrun.
  - cbn in Hrun. injection Hrun as _ <-. exists [].
    cbn. by rewrite app_nil_r.
  - rewrite receive_step in Hrun.
    destruct (device (usb kb)) as [|bs] eqn:Hdev.
    + injection Hrun as _ <-. exists [Timeout]. cbn. split_and!; [done|lia|done].
    + case_decide as Hhdr.
      * injection Hrun as _ <-. exists [Packet bs]. cbn.
        split_and!; [done|lia|done].
      * destruct (IH _ _ _ Hrun) as (rs & Husb & Hlen & Hc & Hd).
        exists (Packet bs :: rs). cbn in *.
        rewrite Husb, <- app_assoc. split_and!; [done | lia | done].
Qed.

(** An accepted call puts on the port, in this order: a sleep if and only if
    the command is 2, one write of the request frame, and then reads, at
    most as many as the loop makes rounds; it ends, however it ends, with
    the blob and the dirty flag as they were. *)
Theorem send_command_port_events (device : list event → read_result)
    (budget : nat) (c : Z) (p : list Z) (o : Z) (kb : Keyboard) :
  0 < c <= 255 → (length p ≤ 56)%nat →
  ∃ rs : list read_result,
    usb (send_command device budget c p o kb).2
    = usb kb
      ++ (if decide (c = 2) then [Slept] else [])
      ++ [Wrote (request_frame c p o)]
      ++ (Read <$> rs)
    ∧ (length rs ≤ budget)%nat
    ∧ untouched kb (send_command device budget c p o kb).2.
Proof.
  intros Hc Hp. rewrite send_command_valid by done.
  destruct (receive device budget (request_frame c p o)
              (set_usb (after_write c p o (usb kb)) kb))
    as [out kb'] eqn:Hrun.
  destruct (receive_reads _ _ _ _ _ _ Hrun) as (rs & Husb & Hlen & Hun).
  exists rs. cbn [snd]. split_and!; [|done|done].
  rewrite Husb. unfold after_write. cbn [usb set_usb].
  by rewrite <- !app_assoc.
Qed.

Lemma send_command_port_events_witness :
  ∃ rs : list read_result,
    usb (send_command demo_device 4 2 [] 0 blank_keyboard).2
    = usb blank_keyboard
      ++ (if decide (2 = 2) then [Slept] else [])
      ++ [Wrote (request_frame 2 [] 0)]
      ++ (Read <$> rs)
    ∧ (length rs ≤ 4)%nat
    ∧ untouched blank_keyboard
        (send_command demo_device 4 2 [] 0 blank_keyboard).2.
Proof.
  apply (send_command_port_events demo_device 4 2 [] 0 blank_keyboard).
  - lia.
  - cbn [length]. lia.
Defined.

(** ** Sequences of calls against any device *)

Section AnyDevice.

Variable device : list event → read_result.
Variable budget : nat.

Lemma untouched_refl (kb : Keyboard) : untouched kb kb.
Proof. done. Qed.

Lemma untouched_trans (kb1 kb2 kb3 : Keyboard) :
  untouched kb1 kb2 → untouched kb2 kb3 → untouched kb1 kb3.
Proof. intros [H1 H2] [H3 H4]. split; congruence. Qed.

Lemma send_command_effect (c : Z) (p : list Z) (o : Z) (kb : Keyboard) :
  0 < c <= 255 → (length p ≤ 56)%nat →
  untouched kb (send_command device budget c p o kb).2
  ∧ writes (usb (send_command device budget c p o kb).2)
    = writes (usb kb) ++ [request_frame c p o].
Proof.
  intros Hc Hp. rewrite send_command_valid by done.
  destruct (receive device budget (request_frame c p o)
              (set_usb (after_write c p o (usb kb)) kb))
    as [out kb'] eqn:Hrun.
  destruct (receive_frame device budget (request_frame c p o)
              (set_usb (after_write c p o (usb kb)) kb)) as (Hw & Hc' & Hd').
  rewrite Hrun in Hw, Hc', Hd'. cbn [snd usb set_usb config
    config_needs_update] in *.
  split; [done|]. rewrite Hw. unfold after_write.
  rewrite !writes_app. case_decide; [|by rewrite app_nil_r].
  by rewrite <- app_assoc.
Qed.

Lemma transact_effect (calls : list call) :
  Forall valid_call calls →
  ∀ (kb kb' : Keyboard) (out : outcome (list (list Z))),
    transact device budget calls kb = (out, kb') →
    untouched kb kb'
    ∧ ∃ k : nat,
        (k ≤ length calls)%nat
        ∧ writes (usb kb') = writes (usb kb) ++ take k (frame_of <$> calls)
        ∧ ∀ rs, out = Ok rs → k = length calls ∧ length rs = length calls.
Proof.
  induction 1 as [|[[c p] o] rest [Hc Hp] _ IH]; intros kb kb' out Hrun.
  - injection Hrun as <- <-. split; [done|]. exists 0%nat.
    cbn. rewrite app_nil_r. split_and!; [done | done |].
    by intros rs [= <-].
  - cbn [transact] in Hrun. unfold mbind, M_bind, mret, M_ret in Hrun.
    destruct (send_command_effect c p o kb Hc Hp) as [Hun Hw].
    destruct (send_command device budget c p o kb) as [[r|e|] kb1];
      cbn [snd] in Hun, Hw.
    + destruct (transact device budget rest kb1) as [out2 kb2] eqn:Hrest.
      destruct (IH _ _ _ Hrest) as (Hun2 & k & Hk & Hw2 & Hok).
      assert (kb2 = kb') as -> by (by destruct out2; injection Hrun).
      split; [by eapply untouched_trans|]. exists (S k).
      cbn [length fmap list_fmap take frame_of].
      rewrite Hw2, Hw, <- app_assoc. split_and!; [lia | done |].
      intros rs ->. destruct out2 as [rs2| |]; [|done..].
      injection Hrun as <-. destruct (Hok rs2 eq_refl) as [-> Hlen].
      cbn [length]. by rewrite Hlen.
    + injection Hrun as <- <-. split; [done|]. exists 1%nat.
      cbn [length fmap list_fmap take frame_of]. rewrite take_0.
      split_and!; [lia | done | by intros rs [=]].
    + injection Hrun as <- <-. split; [done|]. exists 1%nat.
      cbn [length fmap list_fmap take frame_of]. rewrite take_0.
      split_and!; [lia | done | by intros rs [=]].
Qed.

(** Whatever the device does, [load_config] writes frames of its fixed
    sequence only, in order and from the first; it replaces the blob and
    clears the flag only when all 24 calls came back; when it raises, the
    blob and the flag are as before. *)
Theorem load_config_any_device (kb : Keyboard) :
  ∃ k : nat,
    (k ≤ 24)%nat
    ∧ writes (usb (load_config device budget kb).2)
      = writes (usb kb) ++ take k (frame_of <$> load_calls)
    ∧ match (load_config device budget kb).1 with
      | Ok _ =>
          k = 24%nat
          ∧ config_needs_update (load_config device budget kb).2 = false
      | _ => untouched kb (load_config device budget kb).2
      end.
Proof.
  rewrite load_config_transact. unfold mbind, M_bind.
  destruct (transact device budget load_calls kb) as [out kb1] eqn:Hrun.
  destruct (transact_effect load_calls load_calls_valid _ _ _ Hrun)
    as (Hun & k & Hk & Hw & Hok).
  exists k. destruct out as [rs|e|]; cbn.
  - destruct (Hok rs eq_refl) as [-> _]. done.
  - done.
  - done.
Qed.

(** Whatever the device does, [update_config] leaves the blob alone and
    clears the dirty flag only when it returns; when it raises the flag is
    still set, so the write-back can be tried again.  What it writes is a
    front part of: command 1, command 6 with the blob, command 2. *)
Theorem update_config_any_device (kb : Keyboard) :
  config_needs_update kb = true → (length (config kb) ≤ 56)%nat →
  ∃ k : nat,
    (k ≤ 3)%nat
    ∧ writes (usb (update_config device budget kb).2)
      = writes (usb kb) ++ take k (frame_of <$> commit_calls (config kb))
    ∧ config (update_config device budget kb).2 = config kb
    ∧ match (update_config device budget kb).1 with
      | Ok _ =>
          k = 3%nat
          ∧ config_needs_update (update_config device budget kb).2 = false
      | _ => config_needs_update (update_config device budget kb).2 = true
      end.
Proof.
  intros Hdirty Hlen. rewrite update_config_transact by done.
  unfold mbind, M_bind.
  assert (Hvalid : Forall valid_call (commit_calls (config kb))).
  { unfold commit_calls. repeat (constructor; [cbn; lia|]). constructor. }
  destruct (transact device budget (commit_calls (config kb)) kb)
    as [out kb1] eqn:Hrun.
  destruct (transact_effect _ Hvalid _ _ _ Hrun)
    as ([Hc Hd] & k & Hk & Hw & Hok).
  exists k. destruct out as [rs|e|]; cbn.
  - destruct (Hok rs eq_refl) as [-> _]. done.
  - split_and!; [done | done | done | congruence].
  - split_and!; [done | done | done | congruence].
Qed.

End AnyDevice.

Lemma update_config_any_device_witness :
  ∃ k : nat,
    (k ≤ 3)%nat
    ∧ writes (usb (update_config silent_device 1
                     (mkKeyboard [] (replicate 48 0) true)).2)
      = writes [] ++ take k (frame_of <$> commit_calls (replicate 48 0))
    ∧ config (update_config silent_device 1
                (mkKeyboard [] (replicate 48 0) true)).2
      = replicate 48 0
    ∧ match (update_config silent_device 1
               (mkKeyboard [] (replicate 48 0) true)).1 with
      | Ok _ =>
          k = 3%nat
          ∧ config_needs_update
              (update_config silent_device 1
                 (mkKeyboard [] (replicate 48 0) true)).2 = false
      | _ =>
          config_needs_update
            (update_config silent_device 1
               (mkKeyboard [] (replicate 48 0) true)).2 = true
      end.
Proof.
  apply (update_config_any_device silent_device 1
           (mkKeyboard [] (replicate 48 0) true)).
  - reflexivity.
  - cbn. lia.
Defined.

(** ** The setters: failure half-way, order, repetition *)


Section SetterOrder.

Variable device : list event → read_result.
Variable budget : nat.

(** A clock whose year is outside 2000..2099 makes [set_datetime] raise
    [ValueError] at its last field: by then entries 35 to 40 are already
    overwritten, entry 41 is not, and the dirty flag is not set. *)
Theorem set_datetime_year_out_of_range (now : datetime) (kb : Keyboard) :
  (41 < length (config kb))%nat →
  0 <= second now <= 99 → 0 <= minute now <= 99 → 0 <= hour now <= 99 →
  0 <= day now <= 99 → 0 <= month now <= 99 →
  ¬ 0 <= year now - 2000 <= 99 →
  set_datetime device budget now kb
  = (Raise ValueError,
     mkKeyboard (usb kb)
       (<[40%nat:=bcd (month now)]>
          (<[39%nat:=bcd (day now)]>
             (<[38%nat:=isoweekday now]>
                (<[37%nat:=bcd (hour now)]>
                   (<[36%nat:=bcd (minute now)]>
                      (<[35%nat:=bcd (second now)]> (config kb)))))))
       (config_needs_update kb)).
Proof.
  intros Hlen Hs Hmi Hh Hd Hmo Hy.
  unfold set_datetime, DATE_OFFSET.
  rewrite (bind_run _ _ _ _ _ (ensure_config_loaded device budget kb
             (loaded_nonempty kb _ Hlen))).
  do 11 (first
    [ erewrite bind_run by (apply lift_ok, int_to_bcd_ok; lia)
    | erewrite bind_run
        by (apply config_setitem_ok; cbn [config set_config];
            rewrite ?length_insert; lia) ]).
  unfold mbind, M_bind, lift, _int_to_bcd.
  rewrite decide_False by done. by destruct kb.
Qed.



End SetterOrder.



Lemma set_datetime_year_out_of_range_witness :
  set_datetime silent_device 0 late_clock blank_keyboard
  = (Raise ValueError,
     mkKeyboard []
       (<[40%nat:=bcd 1]>
          (<[39%nat:=bcd 1]>
             (<[38%nat:=5]>
                (<[37%nat:=bcd 0]>
                   (<[36%nat:=bcd 0]>
                      (<[35%nat:=bcd 0]> (replicate 48 0)))))))
       false).
Proof.
  apply (set_datetime_year_out_of_range silent_device 0 late_clock
           blank_keyboard); cbn; lia.
Defined.



(** ** A blob too large to write back *)

Lemma send_command_oversize (device : list event → read_result)
    (budget : nat) (p : list Z) (kb : Keyboard) :
  (56 < length p)%nat →
  send_command device budget 6 p 0 kb = (Raise ValueError, kb).
Proof.
  intros Hp. unfold send_command.
  rewrite (decide_False (P := ¬ _)) by (intros H; apply H; lia).
  by rewrite decide_True.
Qed.

(** A dirty blob of more than 56 entries cannot be written back: against a
    device that answers, [update_config] makes command 1, then
    [send_command] refuses command 6 with [ValueError]; command 2 is never
    made and the flag stays set. *)
Theorem update_config_oversized (device : list event → read_result)
    (kb : Keyboard) :
  responsive device →
  config_needs_update kb = true → (56 < length (config kb))%nat →
  ∃ (n : nat) (x : exchange),
    x_call x = (1, [], 0) ∧ exchange_ok x
    ∧ ∀ budget : nat, (n ≤ budget)%nat →
        update_config device budget kb
        = (Raise ValueError, set_usb (usb kb ++ exchange_events x) kb)
        ∧ writes (usb kb ++ exchange_events x)
          = writes (usb kb) ++ [request_frame 1 [] 0].
Proof.
  intros Hdev Hdirty Hlen.
  destruct (send_command_answered device Hdev (1, [], 0) kb)
    as (n & x & Hx & Hok & Hrun).
  { split; [lia | cbn; lia]. }
  exists n, x. split_and!; [done | done |].
  intros budget Hb. split.
  - unfold update_config.
    unfold mbind at 1, M_bind at 1, get_config_needs_update.
    rewrite Hdirty. cbn [negb].
    erewrite bind_run by (by apply Hrun).
    unfold mbind, M_bind, get_config. cbn [config set_usb].
    rewrite send_command_oversize by done. done.
  - by rewrite writes_app, writes_exchange, Hx.
Qed.

Lemma update_config_oversized_witness :
  ∃ (n : nat) (x : exchange),
    x_call x = (1, [], 0) ∧ exchange_ok x
    ∧ ∀ budget : nat, (n ≤ budget)%nat →
        update_config demo_device budget (mkKeyboard [] (replicate 57 0) true)
        = (Raise ValueError,
           set_usb ([] ++ exchange_events x)
             (mkKeyboard [] (replicate 57 0) true))
        ∧ writes ([] ++ exchange_events x)
          = writes [] ++ [request_frame 1 [] 0].
Proof.
  apply (update_config_oversized demo_device
           (mkKeyboard [] (replicate 57 0) true) demo_responsive).
  - reflexivity.
  - cbn. lia.
Defined.

(** ** A setter on an object that holds no blob yet *)

Section LazyLoad.

Variable device : list event → read_result.

Lemma ensure_config_empty (budget : nat) (kb : Keyboard) :
  config kb = [] →
  ensure_config device budget kb = load_config device budget kb.
Proof.
  intros Hnil. unfold ensure_config, mbind, M_bind, get_config.
  by rewrite Hnil.
Qed.

Lemma bind_raise {A B} (m : M A) (f : A → M B) (kb kb' : Keyboard)
    (e : exn) :
  m kb = (Raise e, kb') → (m ≫= f) kb = (Raise e, kb').
Proof. intros H. unfold mbind, M_bind. by rewrite H. Qed.

Lemma config_setitem_outside (i : nat) (v : Z) (kb : Keyboard) :
  (length (config kb) ≤ i)%nat →
  config_setitem i v kb = (Raise IndexError, kb).
Proof.
  intros Hi. unfold config_setitem, mbind, M_bind, get_config, lift,
    list_setitem.
  by rewrite decide_False by lia.
Qed.

Lemma set_frame_count_body (a b : Z) (kb : Keyboard) :
  (_ ← config_setitem FRAMES_1_OFFSET a;
   _ ← config_setitem FRAMES_2_OFFSET b;
   put_config_needs_update true) kb
  = if decide (46 < length (config kb))%nat
    then (Ok tt, mkKeyboard (usb kb) (with_frame_count a b (config kb)) true)
    else (Raise IndexError,
          mkKeyboard (usb kb) (<[34%nat:=a]> (config kb))
            (config_needs_update kb)).
Proof.
  unfold FRAMES_1_OFFSET, FRAMES_2_OFFSET, with_frame_count.
  case_decide as Hlen.
  - erewrite bind_run by (apply config_setitem_ok; lia).
    erewrite bind_run
      by (apply config_setitem_ok; cbn; rewrite length_insert; lia).
    reflexivity.
  - destruct (decide (34 < length (config kb))%nat) as [H34 | H34].
    + erewrite bind_run by (apply config_setitem_ok; lia).
      erewrite bind_raise
        by (apply config_setitem_outside; cbn; rewrite length_insert; lia).
      reflexivity.
    + erewrite bind_raise by (apply config_setitem_outside; lia).
      rewrite list_insert_ge by lia. by destruct kb.
Qed.

Hypothesis device_responsive : responsive device.

Lemma load_config_answered (kb : Keyboard) :
  ∃ (n : nat) (xs : list exchange),
    x_call <$> xs = load_calls ∧ Forall exchange_ok xs
    ∧ ∀ budget : nat, (n ≤ budget)%nat →
        load_config device budget kb
        = (Ok tt,
           mkKeyboard (usb kb ++ (xs ≫= exchange_events))
             (mjoin (payload <$> drop 12 xs)) false).
Proof.
  destruct (transact_answered device device_responsive load_calls
              load_calls_valid kb) as (n & xs & Hxs & Hok & Hrun).
  exists n, xs. split_and!; [done | done |].
  intros budget Hb. rewrite load_config_transact.
  erewrite bind_run by (by apply Hrun).
  by rewrite fmap_drop.
Qed.

(** A setter called on an object without a blob loads it first.  Against a
    device that answers, [set_frame_count] makes the 24 calls of a load and
    then writes its two entries into what was read; when the device's
    replies were too short for the blob to reach entry 46, the assignment
    raises [IndexError] and leaves the short blob, not marked dirty. *)
Theorem set_frame_count_loads_first (a b : Z) (kb : Keyboard) :
  config kb = [] →
  ∃ (n : nat) (xs : list exchange),
    x_call <$> xs = load_calls ∧ Forall exchange_ok xs
    ∧ ∀ budget : nat, (n ≤ budget)%nat →
        let blob := mjoin (payload <$> drop 12 xs) in
        let t := usb kb ++ (xs ≫= exchange_events) in
        set_frame_count device budget a b kb
        = if decide (46 < length blob)%nat
          then (Ok tt, mkKeyboard t (with_frame_count a b blob) true)
          else (Raise IndexError, mkKeyboard t (<[34%nat:=a]> blob) false).
Proof.
  intros Hnil.
  destruct (load_config_answered kb) as (n & xs & Hxs & Hok & Hrun).
  exists n, xs. split_and!; [done | done |].
  intros budget Hb. cbv zeta. unfold set_frame_count.
  erewrite bind_run
    by (rewrite ensure_config_empty by done; by apply Hrun).
  by rewrite set_frame_count_body.
Qed.

End LazyLoad.

Lemma set_frame_count_loads_first_witness :
  ∃ (n : nat) (xs : list exchange),
    x_call <$> xs = load_calls ∧ Forall exchange_ok xs
    ∧ ∀ budget : nat, (n ≤ budget)%nat →
        let blob := mjoin (payload <$> drop 12 xs) in
        let t := usb (new_keyboard []) ++ (xs ≫= exchange_events) in
        set_frame_count demo_device budget 10 5 (new_keyboard [])
        = if decide (46 < length blob)%nat
          then (Ok tt, mkKeyboard t (with_frame_count 10 5 blob) true)
          else (Raise IndexError, mkKeyboard t (<[34%nat:=10]> blob) false).
Proof.
  apply (set_frame_count_loads_first demo_device demo_responsive 10 5
           (new_keyboard [])).
  reflexivity.
Defined.

(** When the device stays silent after the first frame of the load, each
    setter called on an object without a blob raises the timeout error
    after one write and one read; there is still no blob and the flag is as
    it was. *)
Theorem setter_load_times_out (device : list event → read_result)
    (budget : nat) (now : datetime) (ms a b : Z) (kb : Keyboard) :
  config kb = [] →
  device (after_write 1 [] 0 (usb kb)) = Timeout →
  let kb' := set_usb (after_write 1 [] 0 (usb kb) ++ [Read Timeout]) kb in
  set_datetime device (S budget) now kb = (Raise USBTimeoutError, kb')
  ∧ set_animation_delay device (S budget) ms kb = (Raise USBTimeoutError, kb')
  ∧ set_frame_count device (S budget) a b kb = (Raise USBTimeoutError, kb')
  ∧ config kb' = [].
Proof.
  intros Hnil Hdev. cbv zeta.
  assert (Hload : load_config device (S budget) kb
            = (Raise USBTimeoutError,
               set_usb (after_write 1 [] 0 (usb kb) ++ [Read Timeout]) kb)).
  { unfold load_config. unfold mbind at 1, M_bind at 1.
    rewrite send_command_valid by (cbn [length]; lia).
    rewrite receive_step. cbn [usb set_usb]. by rewrite Hdev. }
  assert (Hens : ensure_config device (S budget) kb
            = (Raise USBTimeoutError,
               set_usb (after_write 1 [] 0 (usb kb) ++ [Read Timeout]) kb))
    by (by rewrite ensure_config_empty).
  unfold set_datetime, set_animation_delay, set_frame_count.
  split_and!; [by erewrite bind_raise.. | done].
Qed.

Lemma setter_load_times_out_witness :
  set_frame_count silent_device 1 10 5 (new_keyboard [])
  = (Raise USBTimeoutError,
     set_usb (after_write 1 [] 0 [] ++ [Read Timeout]) (new_keyboard [])).
Proof.
  destruct (setter_load_times_out silent_device 0 demo_clock 100 10 5
              (new_keyboard [])) as (_ & _ & H & _).
  - reflexivity.
  - reflexivity.
  - exact H.
Defined.

(** ** The offsets of an upload *)

Lemma chunk_starts_inside (total k : nat) :
  (k < chunk_count total)%nat → (56 * k < total)%nat.
Proof.
  rewrite chunk_count_div_mod.
  pose proof (Nat.div_mod_eq total 56) as Hdm.
  pose proof (Nat.mod_upper_bound total 56 ltac:(lia)) as Hr.
  case_decide; lia.
Qed.

(** With at most 256 frames in the two animations together ([main] allows
    90) every chunk of the upload starts below 2^24: the three offset bytes
    of its frame hold the chunk's position exactly, and the frame carries the
    chunk itself. *)
Theorem upload_offsets_fit (first second : Animation) (k : nat) :
  Forall full_frame first → Forall full_frame second →
  (num_frames first + num_frames second ≤ 256)%nat →
  let data := mjoin (encoding <$> first) ++ mjoin (encoding <$> second) in
  (k < chunk_count (length data))%nat →
  let f := frame_of (chunk_call data k) in
  0 <= Z.of_nat (56 * k) < 2 ^ 24
  ∧ (∃ b5 b6 b7 : Z,
       take 3 (drop 5 f) = [b5; b6; b7]
       ∧ b5 + 256 * b6 + 65536 * b7 = Z.of_nat (56 * k))
  ∧ f !! 4%nat = Some (Z.of_nat (length (chunk data k)))
  ∧ take (length (chunk data k)) (drop 8 f) = chunk data k.
Proof.
  intros Hfirst Hsecond Hcount. cbv zeta. intros Hk.
  set (data := mjoin (encoding <$> first) ++ mjoin (encoding <$> second))
    in *.
  assert (Hlen : Z.of_nat (length data) <= 16777216).
  { subst data. rewrite length_app, Nat2Z.inj_add.
    rewrite !encodings_length by done. unfold num_frames in Hcount. lia. }
  apply chunk_starts_inside in Hk.
  assert (Hpos : 0 <= Z.of_nat (56 * k) < 2 ^ 24)
    by (change (2 ^ 24) with 16777216; lia).
  split; [done|].
  unfold chunk_call, frame_of. rewrite request_frame_unfold. cbv zeta.
  cbn [drop take lookup list_lookup].
  split_and!.
  - eexists _, _, _. split; [reflexivity|]. by apply le24.
  - done.
  - by rewrite drop_0, take_app_length.
Qed.

Lemma upload_offsets_fit_witness :
  let data := mjoin (encoding <$> white_animation)
              ++ mjoin (encoding <$> black_animation) in
  let f := frame_of (chunk_call data 0) in
  0 <= Z.of_nat (56 * 0) < 2 ^ 24
  ∧ (∃ b5 b6 b7 : Z,
       take 3 (drop 5 f) = [b5; b6; b7]
       ∧ b5 + 256 * b6 + 65536 * b7 = Z.of_nat (56 * 0))
  ∧ f !! 4%nat = Some (Z.of_nat (length (chunk data 0)))
  ∧ take (length (chunk data 0)) (drop 8 f) = chunk data 0.
Proof.
  assert (Hwhite : Forall full_frame white_animation).
  { constructor; [|constructor]. unfold full_frame.
    rewrite length_replicate. apply Z2Nat.id.
    unfold DISPLAY_WIDTH, DISPLAY_HEIGHT. lia. }
  assert (Hblack : Forall full_frame black_animation).
  { constructor; [|constructor]. unfold full_frame.
    rewrite length_replicate. apply Z2Nat.id.
    unfold DISPLAY_WIDTH, DISPLAY_HEIGHT. lia. }
  apply (upload_offsets_fit white_animation black_animation 0 Hwhite Hblack).
  - cbn. lia.
  - assert (Hlen : Z.of_nat (length (mjoin (encoding <$> white_animation)
                     ++ mjoin (encoding <$> black_animation))) = 2 * 65536).
    { rewrite length_app, Nat2Z.inj_add, !encodings_length by done.
      reflexivity. }
    destruct (chunk_count _) as [|m] eqn:Hm; [|lia].
    pose proof (chunk_count_covers (length (mjoin (encoding <$> white_animation)
                     ++ mjoin (encoding <$> black_animation)))) as Hcov.
    rewrite Hm in Hcov. lia.
Defined.

(** ** The runs of [main] *)


Section MainRuns.

Variable device : list event → read_result.
Hypothesis device_responsive : responsive device.







End MainRuns.


Section MainUpload.

Variable device : list event → read_result.
Hypothesis device_responsive : responsive device.


End MainUpload.


(** ** The runs evaluated against the example device *)

Lemma demo_load_blob :
  (load_config demo_device 2 (new_keyboard [])).1 = Ok tt
  ∧ length (config (load_config demo_device 2 (new_keyboard [])).2) = 48%nat
  ∧ length (writes (usb (load_config demo_device 2 (new_keyboard [])).2))
    = 24%nat.
Proof. vm_compute. done. Qed.

Lemma demo_time_only_run :
  (main_time_only demo_device 2 demo_clock (new_keyboard [])).1 = Ok (Some 0)
  ∧ take 7 (drop 35 (config
        (main_time_only demo_device 2 demo_clock (new_keyboard [])).2))
    = [0x59; 0x37; 0x13; 2; 0x04; 0x11; 0x25]
  ∧ length (writes (usb
        (main_time_only demo_device 2 demo_clock (new_keyboard [])).2))
    = 27%nat.
Proof. vm_compute. done. Qed.
